(** * openai-proxy: the four POST routes of [server.js]

    A shallow embedding of the Express handlers of [src/server.js]
    ([/translate], [/chat], [/voice-to-text], [/text-to-voice]) and the
    properties the specification states about them.

    The handlers are [async] functions whose body is one [try]/[catch].
    They are modelled in a state-and-exception monad over the world the
    handler can touch (the file system under [/tmp], the clock read by
    [Date.now()], the log of provider operations invoked on the OpenAI client,
    the lines written by [console.error]) and the [res] object of the
    request.  The OpenAI client is an argument of every handler: a record of
    the three operations the source calls, each returning either a value or
    a thrown error.

    The application is an Express 4 application (the route pattern ["/*"] of
    its [app.options] is not accepted by Express 5), so [req.body] is what
    body-parser 1.x leaves there: the object or array parsed by
    [express.json] (strict mode) or [express.urlencoded], and the empty
    object when no body was parsed.  A request is one that reaches its
    handler: the middleware in front of it ([cors], the body parsers,
    multer) has accepted it.  Whether a write to the file system succeeds
    is the world's to say: [fs.writeFileSync] throws when the disk refuses
    the write.  [fs.unlinkSync] throws when the file is not there. *)

From Stdlib Require Import ZArith QArith Floats.SpecFloat.
From Stdlib Require Import Strings.Byte Strings.Ascii Strings.String.
From stdpp Require Import gmap strings list pretty.

Set Warnings "-register-all".

(** ** JavaScript strings *)

(** A JavaScript string is a sequence of UTF-16 code units. *)
Abbreviation jsstring := (list N).

(** The string literals of the source are ASCII. *)
Definition lit (s : string) : jsstring :=
  (fun a => N_of_ascii a) <$> String.list_ascii_of_string s.
Arguments lit _ : simpl never.

(** ECMAScript [WhiteSpace] and [LineTerminator] code points, all of them in
    the basic plane: what [String.prototype.trim] strips. *)
Definition WhiteSpace (c : N) : bool :=
  ((c =? 9) || (c =? 11) || (c =? 12) || (c =? 32) || (c =? 160)
   || (c =? 5760) || ((8192 <=? c) && (c <=? 8202))
   || (c =? 8239) || (c =? 8287) || (c =? 12288) || (c =? 65279))%N.

Definition LineTerminator (c : N) : bool :=
  ((c =? 10) || (c =? 13) || (c =? 8232) || (c =? 8233))%N.

Definition strippable (c : N) : bool := WhiteSpace c || LineTerminator c.

Fixpoint trimStart (s : jsstring) : jsstring :=
  match s with
  | c :: s' => if strippable c then trimStart s' else s
  | [] => []
  end.

Definition trimEnd (s : jsstring) : jsstring := reverse (trimStart (reverse s)).

(** [String.prototype.trim] *)
Definition trim (s : jsstring) : jsstring := trimEnd (trimStart s).

(** [hay.includes(needle)] *)
Fixpoint starts_with (needle hay : jsstring) : bool :=
  match needle, hay with
  | [], _ => true
  | _ :: _, [] => false
  | a :: n', b :: h' => (a =? b)%N && starts_with n' h'
  end.

Fixpoint includes (hay needle : jsstring) : bool :=
  starts_with needle hay
  || match hay with
     | [] => false
     | _ :: h' => includes h' needle
     end.

(** ** JavaScript values *)

(** The values a JSON document, a urlencoded form or a provider's JSON answer
    can hold, with [undefined] for what is absent.  A number is an IEEE 754
    double ([spec_float] with 53 bits of precision); an object is a finite map
    from property names to values. *)
Inductive jsval :=
| JUndefined
| JNull
| JBool (b : bool)
| JNum (n : spec_float)
| JStr (s : jsstring)
| JArr (l : list jsval)
| JObj (o : gmap jsstring jsval).

(** [ToBoolean]: [!v] is [negb (truthy v)]. *)
Definition truthy (v : jsval) : bool :=
  match v with
  | JUndefined | JNull => false
  | JBool b => b
  | JNum (S754_zero _) | JNum S754_nan => false
  | JNum _ => true
  | JStr [] => false
  | JStr _ => true
  | JArr _ | JObj _ => true
  end.

Definition nullish (v : jsval) : bool :=
  match v with
  | JUndefined | JNull => true
  | _ => false
  end.

(** [a || b] *)
Definition js_or (a b : jsval) : jsval := if truthy a then a else b.

(** [v.k] for a property name [k] that no built-in prototype defines
    ([text], [targetLanguage], [message], [language], [choices], [content]):
    only an object can have it, as an own property. *)
Definition get_named (k : jsstring) (v : jsval) : jsval :=
  match v with
  | JObj o => default JUndefined (o !! k)
  | _ => JUndefined
  end.

(** [v[0]] on a value that is neither [undefined] nor [null]. *)
Definition get_index0 (v : jsval) : jsval :=
  match v with
  | JArr l => default JUndefined (head l)
  | JStr (c :: _) => JStr [c]
  | JObj o => default JUndefined (o !! lit "0")
  | _ => JUndefined
  end.

(** [v?.access]: [undefined] when [v] is [undefined] or [null]. *)
Definition opt_chain (access : jsval → jsval) (v : jsval) : jsval :=
  if nullish v then JUndefined else access v.

(** ** Errors and completions *)

(** What the handlers catch: an [Error] instance, as the OpenAI client and
    the runtime throw them, with its [name] and its [message]. *)
Record js_error := Error { err_name : jsstring; err_message : jsstring }.

(** The outcome of evaluating an expression, or of awaiting a promise. *)
Inductive completion (A : Type) :=
| Normal (a : A)
| Throw (e : js_error).
Arguments Normal {A} a.
Arguments Throw {A} e.

(** [Error.prototype.toString] *)
Definition Error_toString (e : js_error) : jsstring :=
  match err_name e, err_message e with
  | [], msg => msg
  | name, [] => name
  | name, msg => name ++ lit ": " ++ msg
  end.

(** [err?.message || err] for a thrown [Error] instance: its message, or the
    error itself when the message is the empty string. *)
Definition message_or_self (err : js_error) : jsstring + js_error :=
  match err_message err with
  | [] => inr err
  | msg => inl msg
  end.

(** [String(x)] for [x] the value of [err?.message || err]. *)
Definition String_ (x : jsstring + js_error) : jsstring :=
  match x with
  | inl s => s
  | inr e => Error_toString e
  end.

(** What the source takes from the JavaScript engine and from Node and never
    spells out: the decimal rendering of a double, and the texts of the
    errors the runtime raises. *)
Record engine := {
  Number_toString : spec_float → jsstring;
  (* message of the TypeError of ToPrimitive on an object with no usable
     toString/valueOf *)
  msg_not_primitive : jsstring;
  (* message of the TypeError of calling what is not a function *)
  msg_not_function : jsstring;
  (* message of the ENOENT error of fs.unlinkSync on the given path *)
  msg_enoent : jsstring → jsstring
}.

(** ** The world of a handler *)

(** [{ role, content }] *)
Record chat_message := { role : jsstring; content : jsval }.

(** The argument of [openai.chat.completions.create]. *)
Record chat_params := {
  cp_model : jsstring;
  cp_messages : list chat_message;
  cp_max_tokens : N;
  cp_temperature : Q
}.

(** The argument of [openai.audio.transcriptions.create]; [tp_file] is the
    path the [fs.createReadStream] stream reads. *)
Record transcription_params := { tp_file : jsstring; tp_model : jsstring }.

(** The argument of [openai.audio.speech.create]. *)
Record speech_params := {
  sp_model : jsstring;
  sp_voice : jsstring;
  sp_input : jsval
}.

(** One operation invoked on the external provider. *)
Inductive provider_call :=
| ChatCompletionsCreate (p : chat_params)
| AudioTranscriptionsCreate (p : transcription_params)
| AudioSpeechCreate (p : speech_params).

(** The Response-like object [openai.audio.speech.create] resolves to:
    awaiting its [arrayBuffer()] gives the payload or throws. *)
Record speech_response := { arrayBuffer : completion (list byte) }.

(** The OpenAI client: what awaiting each operation gives. *)
Record provider := {
  chat_completions_create : chat_params → completion jsval;
  audio_transcriptions_create : transcription_params → completion jsval;
  audio_speech_create : speech_params → completion speech_response
}.

(** One [console.error(tag, value)] line. *)
Record console_line := { cl_tag : jsstring; cl_value : jsstring + js_error }.

(** How a call of [fs.writeFileSync] ends: the data is written, or the call
    throws (EACCES, EROFS, EISDIR, ENOENT, ENOSPC, ...).  A call that throws
    before it opens the file leaves nothing ([None]); one that throws while
    writing leaves the file with what was written so far. *)
Inductive write_outcome :=
| Written
| WriteFails (e : js_error) (left_behind : option (list byte)).

Record world := {
  w_fs : gmap jsstring (list byte);   (* path -> contents *)
  w_now : N;                          (* what Date.now() returns *)
  w_calls : list provider_call;       (* provider operations invoked so far *)
  w_console : list console_line;      (* console.error output so far *)
  (* how writing the given data at the given path would end *)
  w_write : jsstring → list byte → write_outcome
}.

(** A header value as given to [setHeader]. *)
Inductive header_value :=
| HStr (s : jsstring)
| HNum (n : N).

(** What has been sent as the body of the response. *)
Inductive sent_body :=
| NotSent
| SentJson (v : jsval)              (* res.json(v): v serialised as JSON *)
| SentBuffer (b : list byte).       (* res.send(buffer) *)

(** The [res] object: status code, the headers set through [setHeader],
    [res.json] and [res.send] for the type and length of the content, and
    the body. *)
Record response := {
  statusCode : N;
  headers : gmap string header_value;
  res_body : sent_body
}.

(** A fresh [res]: status 200, nothing set, nothing sent. *)
Definition fresh_res : response :=
  {| statusCode := 200; headers := ∅; res_body := NotSent |}.

(** The state a handler runs on. *)
Record hstate := { hs_world : world; hs_res : response }.

(** ** The monad of handler code *)

Definition M (A : Type) : Type := hstate → completion A * hstate.

Definition ret {A} (a : A) : M A := fun s => (Normal a, s).

Definition bind {A B} (m : M A) (k : A → M B) : M B :=
  fun s =>
    match m s with
    | (Normal a, s') => k a s'
    | (Throw e, s') => (Throw e, s')
    end.

Notation "x <- m ;; k" := (bind m (fun x => k))
  (at level 100, m at next level, right associativity).
Notation "m ;; k" := (bind m (fun _ => k))
  (at level 100, right associativity).

(** [throw e] *)
Definition throw {A} (e : js_error) : M A := fun s => (Throw e, s).

(** The completion of an expression, inside handler code. *)
Definition lift {A} (c : completion A) : M A := fun s => (c, s).

(** [try { body } catch (err) { handler err }] *)
Definition try_catch {A} (body : M A) (handler : js_error → M A) : M A :=
  fun s =>
    match body s with
    | (Normal a, s') => (Normal a, s')
    | (Throw e, s') => handler e s'
    end.

Definition modify_world (f : world → world) : M unit :=
  fun s => (Normal tt, {| hs_world := f (hs_world s); hs_res := hs_res s |}).

Definition modify_res (f : response → response) : M unit :=
  fun s => (Normal tt, {| hs_world := hs_world s; hs_res := f (hs_res s) |}).

Definition get_world : M world := fun s => (Normal (hs_world s), s).

(** ** Requests *)

(** [req.body] as body-parser 1.x leaves it: an object or an array. *)
Inductive parsed_body :=
| BodyObject (o : gmap jsstring jsval)
| BodyArray (l : list jsval).

Definition body_value (b : parsed_body) : jsval :=
  match b with
  | BodyObject o => JObj o
  | BodyArray l => JArr l
  end.

(** [req.file] as multer's [upload.single("audio")] sets it. *)
Record multer_file := { buffer : option (list byte) }.

Record request := {
  req_body : parsed_body;
  req_file : option multer_file
}.

(** [const { k } = req.body] *)
Definition destructure (k : string) (req : request) : jsval :=
  get_named (lit k) (body_value (req_body req)).

(** ** Runtime operations the handlers use *)

Definition set_fs (f : gmap jsstring (list byte)) (w : world) : world :=
  {| w_fs := f; w_now := w_now w; w_calls := w_calls w;
     w_console := w_console w; w_write := w_write w |}.

Definition log_call (c : provider_call) (w : world) : world :=
  {| w_fs := w_fs w; w_now := w_now w; w_calls := w_calls w ++ [c];
     w_console := w_console w; w_write := w_write w |}.

Definition log_console (l : console_line) (w : world) : world :=
  {| w_fs := w_fs w; w_now := w_now w; w_calls := w_calls w;
     w_console := w_console w ++ [l]; w_write := w_write w |}.

(** [Date.now()] *)
Definition Date_now : M N := w <- get_world ;; ret (w_now w).

(** [fs.writeFileSync(path, data)] *)
Definition writeFileSync (path : jsstring) (data : list byte) : M unit :=
  w <- get_world ;;
  match w_write w path data with
  | Written => modify_world (fun w => set_fs (<[path := data]> (w_fs w)) w)
  | WriteFails e None => throw e
  | WriteFails e (Some part) =>
      modify_world (fun w => set_fs (<[path := part]> (w_fs w)) w) ;;
      throw e
  end.

(** [console.error(tag, value)] *)
Definition console_error (tag : string) (v : jsstring + js_error) : M unit :=
  modify_world (log_console {| cl_tag := lit tag; cl_value := v |}).

(** Calling an operation of the client invokes it on the provider; [await]
    then gives its outcome. *)
Definition invoke (c : provider_call) : M unit := modify_world (log_call c).

Definition await {A} (outcome : completion A) : M A := lift outcome.

(** [res.status(code)] *)
Definition res_status (code : N) : M unit :=
  modify_res (fun r =>
    {| statusCode := code; headers := headers r; res_body := res_body r |}).

(** [res.setHeader(name, value)] *)
Definition res_setHeader (name : string) (v : header_value) : M unit :=
  modify_res (fun r =>
    {| statusCode := statusCode r; headers := <[name := v]> (headers r);
       res_body := res_body r |}).

(** Express gives a response a content type only when none is set. *)
Definition default_type (ty : string) (r : response) : gmap string header_value :=
  match headers r !! "Content-Type" with
  | Some _ => headers r
  | None => <["Content-Type" := HStr (lit ty)]> (headers r)
  end.

(** [res.json(v)] *)
Definition res_json (v : jsval) : M unit :=
  modify_res (fun r =>
    {| statusCode := statusCode r;
       headers := default_type "application/json; charset=utf-8" r;
       res_body := SentJson v |}).

(** [res.send(buffer)] for a Buffer: Express sets the length of the content
    from the buffer, as a string. *)
Definition res_send (b : list byte) : M unit :=
  modify_res (fun r =>
    {| statusCode := statusCode r;
       headers := <["Content-Length" := HStr (lit (pretty (N.of_nat (length b))))]>
                    (default_type "application/octet-stream" r);
       res_body := SentBuffer b |}).

(** The name of the temp file of a request that read [now] from the clock:
    [`/tmp/record-${Date.now()}.webm`].  A time value is an integer below
    10^21, which prints as its decimal digits. *)
Definition tmpPath_of (now : N) : jsstring :=
  lit "/tmp/record-" ++ lit (pretty now) ++ lit ".webm".

(** ** The requests sent to the provider *)

(** The object literal [/translate] passes to [openai.chat.completions.create],
    for the prompt built from the request. *)
Definition translate_request (prompt : jsstring) : chat_params :=
  {| cp_model := lit "gpt-4o-mini";
     cp_messages :=
       [ {| role := lit "system";
            content := JStr (lit "You are a helpful translator.") |};
         {| role := lit "user"; content := JStr prompt |} ];
     cp_max_tokens := 500;
     cp_temperature := 0.1 |}.

(** [`Translate the following text to ${targetLanguage} and return only the
    translation:\n\n${text}`], the two fields already converted to strings. *)
Definition translate_prompt (targetLanguage text : jsstring) : jsstring :=
  lit "Translate the following text to " ++ targetLanguage
  ++ lit " and return only the translation:" ++ [10; 10]%N ++ text.

(** The object literal [/chat] passes to [openai.chat.completions.create]. *)
Definition chat_request (langNote : jsstring) (message : jsval) : chat_params :=
  {| cp_model := lit "gpt-4o-mini";
     cp_messages :=
       [ {| role := lit "system";
            content :=
              JStr (lit "You are a friendly language partner. " ++ langNote) |};
         {| role := lit "user"; content := message |} ];
     cp_max_tokens := 400;
     cp_temperature := 0.7 |}.

(** The object literal [/voice-to-text] passes to
    [openai.audio.transcriptions.create]. *)
Definition transcription_request (tmpPath : jsstring) : transcription_params :=
  {| tp_file := tmpPath; tp_model := lit "gpt-4o-mini-transcribe" |}.

(** The object literal [/text-to-voice] passes to
    [openai.audio.speech.create]. *)
Definition speech_request (text : jsval) : speech_params :=
  {| sp_model := lit "gpt-4o-mini-tts"; sp_voice := lit "alloy";
     sp_input := text |}.

Section Gateway.

Variable rt : engine.

(** [ToString(v)], as a template literal applies it.  An array joins its
    elements with commas, [undefined] and [null] giving the empty string.
    An object parsed from JSON is a plain object: it prints as
    ["[object Object]"] unless it has an own property [toString], which
    (being JSON, not callable) hides [Object.prototype.toString] and makes
    [ToPrimitive] throw a TypeError. *)
Fixpoint ToString (v : jsval) : completion jsstring :=
  match v with
  | JUndefined => Normal (lit "undefined")
  | JNull => Normal (lit "null")
  | JBool true => Normal (lit "true")
  | JBool false => Normal (lit "false")
  | JNum n => Normal (Number_toString rt n)
  | JStr s => Normal s
  | JArr l =>
      (fix join (first : bool) (l : list jsval) : completion jsstring :=
         match l with
         | [] => Normal []
         | x :: rest =>
             match (if nullish x then Normal [] else ToString x) with
             | Throw e => Throw e
             | Normal s =>
                 match join false rest with
                 | Throw e => Throw e
                 | Normal t => Normal ((if first then [] else lit ",") ++ s ++ t)
                 end
             end
         end) true l
  | JObj o =>
      match o !! lit "toString" with
      | Some _ => Throw (Error (lit "TypeError") (msg_not_primitive rt))
      | None => Normal (lit "[object Object]")
      end
  end.

(** [content?.trim()]: [undefined] for [undefined] and [null], the trimmed
    string for a string; nothing else parsed from JSON has a callable
    [trim]. *)
Definition opt_trim (v : jsval) : completion jsval :=
  match v with
  | JUndefined | JNull => Normal JUndefined
  | JStr s => Normal (JStr (trim s))
  | _ => Throw (Error (lit "TypeError") (msg_not_function rt))
  end.

(** [resp?.choices?.[0]?.message?.content] *)
Definition first_choice_content (resp : jsval) : jsval :=
  opt_chain (get_named (lit "content"))
    (opt_chain (get_named (lit "message"))
       (opt_chain get_index0
          (opt_chain (get_named (lit "choices")) resp))).

(** [resp?.choices?.[0]?.message?.content?.trim() || ""] *)
Definition reply_text (resp : jsval) : M jsval :=
  t <- lift (opt_trim (first_choice_content resp)) ;;
  ret (js_or t (JStr [])).

(** [fs.unlinkSync(path)] *)
Definition unlinkSync (path : jsstring) : M unit :=
  w <- get_world ;;
  match w_fs w !! path with
  | Some _ => modify_world (fun w => set_fs (delete path (w_fs w)) w)
  | None => throw (Error (lit "Error") (msg_enoent rt path))
  end.

(** ** The handlers *)

(** [{ error: msg }] and [{ error: msg, details: d }] *)
Definition error_body (msg : string) : jsval :=
  JObj {[ lit "error" := JStr (lit msg) ]}.

Definition failure_body (msg : string) (details : jsstring) : jsval :=
  JObj (<[lit "error" := JStr (lit msg)]> {[ lit "details" := JStr details ]}).

(** The [catch (err)] block every handler ends with:
    [console.error(tag, err?.message || err);
     res.status(500).json({ error: msg, details: String(err?.message || err) })] *)
Definition catch_block (tag msg : string) (err : js_error) : M unit :=
  console_error tag (message_or_self err) ;;
  res_status 500 ;;
  res_json (failure_body msg (String_ (message_or_self err))).

(** [app.post("/translate", ...)] *)
Definition translate (openai : provider) (req : request) : M unit :=
  try_catch
    (let text := destructure "text" req in
     let targetLanguage := destructure "targetLanguage" req in
     if negb (truthy text) || negb (truthy targetLanguage) then
       res_status 400 ;;
       res_json (error_body "Missing text or targetLanguage")
     else
       tl <- lift (ToString targetLanguage) ;;
       tx <- lift (ToString text) ;;
       let prompt := translate_prompt tl tx in
       let params := translate_request prompt in
       invoke (ChatCompletionsCreate params) ;;
       resp <- await (chat_completions_create openai params) ;;
       translated <- reply_text resp ;;
       res_json (JObj {[ lit "result" := translated ]}))
    (catch_block "translate error:" "Translate failed").

(** [app.post("/chat", ...)] *)
Definition chat (openai : provider) (req : request) : M unit :=
  try_catch
    (let message := destructure "message" req in
     let language := destructure "language" req in
     if negb (truthy message) then
       res_status 400 ;;
       res_json (error_body "Missing message")
     else
       langNote <-
         (if truthy language then
            l <- lift (ToString language) ;;
            ret (lit "Respond in " ++ l ++ lit ".")
          else ret []) ;;
       let params := chat_request langNote message in
       invoke (ChatCompletionsCreate params) ;;
       resp <- await (chat_completions_create openai params) ;;
       reply <- reply_text resp ;;
       res_json (JObj {[ lit "reply" := reply ]}))
    (catch_block "chat error:" "Chat failed").

(** [req.file && req.file.buffer]: a Buffer is an object, truthy even when
    it is empty. *)
Definition file_buffer (req : request) : option (list byte) :=
  match req_file req with
  | Some f => buffer f
  | None => None
  end.

(** [app.post("/voice-to-text", upload.single("audio"), ...)] *)
Definition voice_to_text (openai : provider) (req : request) : M unit :=
  try_catch
    (match file_buffer req with
     | None =>
         res_status 400 ;;
         res_json (error_body "No audio file uploaded")
     | Some buf =>
         now <- Date_now ;;
         let tmpPath := tmpPath_of now in
         writeFileSync tmpPath buf ;;
         let params := transcription_request tmpPath in
         invoke (AudioTranscriptionsCreate params) ;;
         transcription <- await (audio_transcriptions_create openai params) ;;
         try_catch (unlinkSync tmpPath) (fun _ => ret tt) ;;
         res_json
           (JObj {[ lit "text" :=
                      js_or (opt_chain (get_named (lit "text")) transcription)
                        (JStr []) ]})
     end)
    (catch_block "voice-to-text error:" "Voice-to-text failed").

(** [app.post("/text-to-voice", ...)] *)
Definition text_to_voice (openai : provider) (req : request) : M unit :=
  try_catch
    (let text := destructure "text" req in
     if negb (truthy text) then
       res_status 400 ;;
       res_json (error_body "Missing text")
     else
       let params := speech_request text in
       invoke (AudioSpeechCreate params) ;;
       speech <- await (audio_speech_create openai params) ;;
       bytes <- await (arrayBuffer speech) ;;
       let buffer := bytes in
       res_setHeader "Content-Type" (HStr (lit "audio/mpeg")) ;;
       res_setHeader "Content-Length" (HNum (N.of_nat (length buffer))) ;;
       res_send buffer)
    (catch_block "text-to-voice error:" "TTS failed").

(** The four POST routes. *)
Inductive route := Translate | Chat | VoiceToText | TextToVoice.

Definition handler (r : route) : provider → request → M unit :=
  match r with
  | Translate => translate
  | Chat => chat
  | VoiceToText => voice_to_text
  | TextToVoice => text_to_voice
  end.

(** Serving a request: the handler runs on a fresh [res].  [Normal res] is
    the response it leaves; [Throw e] is an exception that escaped the handler
    (a rejected promise nobody handles). *)
Definition serve (r : route) (openai : provider) (req : request) (w : world)
  : completion response * world :=
  match handler r openai req {| hs_world := w; hs_res := fresh_res |} with
  | (Normal _, s) => (Normal (hs_res s), hs_world s)
  | (Throw e, s) => (Throw e, hs_world s)
  end.

(** ** The two halves of [/voice-to-text]

    An [async] handler runs to its [await] in one turn of the event loop and
    resumes in a later one; turns of other requests may run in between, on
    the same file system and clock, each request with its own [res]. *)

Inductive vtt_task :=
| Responded                        (* the handler returned *)
| Awaiting (tmpPath : jsstring).   (* suspended at the await on the provider *)

(** From the entry of the handler to its [await]. *)
Definition vtt_begin (req : request) : M vtt_task :=
  try_catch
    (match file_buffer req with
     | None =>
         res_status 400 ;;
         res_json (error_body "No audio file uploaded") ;;
         ret Responded
     | Some buf =>
         now <- Date_now ;;
         let tmpPath := tmpPath_of now in
         writeFileSync tmpPath buf ;;
         invoke (AudioTranscriptionsCreate (transcription_request tmpPath)) ;;
         ret (Awaiting tmpPath)
     end)
    (fun err =>
       catch_block "voice-to-text error:" "Voice-to-text failed" err ;;
       ret Responded).

(** From the [await], settled with [outcome], to the end of the handler. *)
Definition vtt_resume (tmpPath : jsstring) (outcome : completion jsval)
  : M unit :=
  try_catch
    (transcription <- await outcome ;;
     try_catch (unlinkSync tmpPath) (fun _ => ret tt) ;;
     res_json
       (JObj {[ lit "text" :=
                  js_or (opt_chain (get_named (lit "text")) transcription)
                    (JStr []) ]}))
    (catch_block "voice-to-text error:" "Voice-to-text failed").

(** One turn of a request: handler code run on the shared world and the
    request's own [res]. *)
Definition turn {A} (m : M A) (res : response) (w : world)
  : completion A * response * world :=
  match m {| hs_world := w; hs_res := res |} with
  | (c, s) => (c, hs_res s, hs_world s)
  end.

(** ** Observations on requests, responses and worlds *)

(** The handler's guard passed: no 400 is returned. *)
Definition validates (r : route) (req : request) : bool :=
  match r with
  | Translate =>
      truthy (destructure "text" req)
      && truthy (destructure "targetLanguage" req)
  | Chat => truthy (destructure "message" req)
  | VoiceToText => bool_decide (is_Some (file_buffer req))
  | TextToVoice => truthy (destructure "text" req)
  end.

(** The request fields a route puts through a template literal before it
    calls the provider, in evaluation order. *)
Definition interpolated (r : route) (req : request) : list jsval :=
  match r with
  | Translate => [destructure "targetLanguage" req; destructure "text" req]
  | Chat =>
      if truthy (destructure "language" req)
      then [destructure "language" req] else []
  | VoiceToText | TextToVoice => []
  end.

Definition converts (v : jsval) : bool :=
  match ToString v with
  | Normal _ => true
  | Throw _ => false
  end.

End Gateway.

(** The fields a route requires, by the name the client gives them. *)
Definition required_fields (r : route) : list string :=
  match r with
  | Translate => ["text"; "targetLanguage"]
  | Chat => ["message"]
  | VoiceToText => ["audio"]
  | TextToVoice => ["text"]
  end.

(** A required field is missing or empty, as the route's guard tests it. *)
Definition field_missing (r : route) (f : string) (req : request) : bool :=
  match r with
  | VoiceToText => bool_decide (file_buffer req = None)
  | _ => negb (truthy (destructure f req))
  end.

(** The [error] text of a route's 500 response. *)
Definition failed_message (r : route) : string :=
  match r with
  | Translate => "Translate failed"
  | Chat => "Chat failed"
  | VoiceToText => "Voice-to-text failed"
  | TextToVoice => "TTS failed"
  end.

(** The field [k] of a JSON response body. *)
Definition json_field (k : string) (res : response) : option jsval :=
  match res_body res with
  | SentJson (JObj o) => o !! lit k
  | _ => None
  end.

(** The provider operations invoked between two worlds. *)
Definition new_calls (w w' : world) : list provider_call :=
  drop (length (w_calls w)) (w_calls w').

(** Awaiting the call [c] on the client [openai] throws [e]. *)
Definition rejects (openai : provider) (c : provider_call) (e : js_error)
  : Prop :=
  match c with
  | ChatCompletionsCreate p => chat_completions_create openai p = Throw e
  | AudioTranscriptionsCreate p => audio_transcriptions_create openai p = Throw e
  | AudioSpeechCreate p => audio_speech_create openai p = Throw e
  end.

(** The call is a chat completion with the given temperature and cap on the
    tokens of the answer. *)
Definition chat_call_with (temperature : Q) (max_tokens : N)
    (c : provider_call) : Prop :=
  match c with
  | ChatCompletionsCreate p =>
      cp_temperature p = temperature ∧ cp_max_tokens p = max_tokens
  | _ => False
  end.

(** A required field that is absent, or the empty string. *)
Definition absent_or_empty (v : jsval) : Prop := v = JUndefined ∨ v = JStr [].

(** The headers [res.json] leaves on a fresh [res]. *)
Definition json_headers : gmap string header_value :=
  {[ "Content-Type" := HStr (lit "application/json; charset=utf-8") ]}.

(** The three JSON responses of the handlers: [res.json(v)],
    [res.status(400).json({ error })] and the response of the [catch]
    block. *)
Definition ok_json (v : jsval) : response :=
  {| statusCode := 200; headers := json_headers; res_body := SentJson v |}.

Definition bad_request (msg : string) : response :=
  {| statusCode := 400; headers := json_headers;
     res_body := SentJson (error_body msg) |}.

Definition failure (msg : string) (e : js_error) : response :=
  {| statusCode := 500; headers := json_headers;
     res_body := SentJson (failure_body msg (String_ (message_or_self e))) |}.

(** What serving a request gives when [e] reaches the [catch] block in world
    [w]: the line on the console and the 500 response. *)
Definition caught (tag msg : string) (e : js_error) (w : world)
  : completion response * world :=
  (Normal (failure msg e),
   log_console {| cl_tag := lit tag; cl_value := message_or_self e |} w).

(** The response of [/text-to-voice] that relays [payload]. *)
Definition audio_response (payload : list byte) : response :=
  {| statusCode := 200;
     headers :=
       <["Content-Length" := HStr (lit (pretty (N.of_nat (length payload))))]>
         (<["Content-Length" := HNum (N.of_nat (length payload))]>
            {[ "Content-Type" := HStr (lit "audio/mpeg") ]});
     res_body := SentBuffer payload |}.

(** ** Example inputs *)

(** An engine to run the handlers on examples, with error texts in the style
    of V8 and Node.  Its [Number_toString] is right on the zeros, NaN, the
    infinities and the integers below 10^21; it prints any other double as
    its integral part, and the examples print none. *)
Definition example_engine : engine :=
  {| Number_toString := fun n =>
       match n with
       | S754_zero _ => lit "0"
       | S754_nan => lit "NaN"
       | S754_infinity false => lit "Infinity"
       | S754_infinity true => lit "-Infinity"
       | S754_finite s m e =>
           (if s then lit "-" else [])
           ++ lit (pretty (Z.to_N (if (0 <=? e)%Z then Z.pos m * 2 ^ e
                                   else Z.pos m / 2 ^ (- e))%Z))
       end;
     msg_not_primitive := lit "Cannot convert object to primitive value";
     msg_not_function := lit "content.trim is not a function";
     msg_enoent := fun path =>
       lit "ENOENT: no such file or directory, unlink '" ++ path ++ lit "'" |}.

(** A mocked client: each operation settles the same way whatever it is
    given. *)
Definition mock (chat_outcome transcription_outcome : completion jsval)
    (speech_outcome : completion speech_response) : provider :=
  {| chat_completions_create := fun _ => chat_outcome;
     audio_transcriptions_create := fun _ => transcription_outcome;
     audio_speech_create := fun _ => speech_outcome |}.

(** A client whose every operation throws [e]. *)
Definition failing (e : js_error) : provider :=
  mock (Throw e) (Throw e) (Throw e).

(** [{ k1: v1, ... }] *)
Definition object (fields : list (string * jsval)) : jsval :=
  JObj (list_to_map (prod_map lit id <$> fields)).

(** A request with the JSON object [{ k1: v1, ... }] as its body. *)
Definition json_request (fields : list (string * jsval)) : request :=
  {| req_body := BodyObject (list_to_map (prod_map lit id <$> fields));
     req_file := None |}.

(** A multipart request with the file [audio]. *)
Definition audio_request (audio : list byte) : request :=
  {| req_body := BodyObject ∅; req_file := Some {| buffer := Some audio |} |}.

(** A world with no file under [/tmp], at some instant, whose disk accepts
    every write. *)
Definition quiet_world : world :=
  {| w_fs := ∅; w_now := 1730000000000; w_calls := []; w_console := [];
     w_write := fun _ _ => Written |}.

(** The same world with a disk that refuses every write with [e], leaving
    nothing. *)
Definition read_only_world (e : js_error) : world :=
  {| w_fs := ∅; w_now := 1730000000000; w_calls := []; w_console := [];
     w_write := fun _ _ => WriteFails e None |}.

Definition EROFS : js_error :=
  Error (lit "Error") (lit "EROFS: read-only file system, open").

Definition boom : js_error := Error (lit "Error") (lit "boom").

(** [{ choices: [ { message: { content } } ] }] *)
Definition completion_with (content : jsval) : jsval :=
  object [("choices", JArr [object [("message", object [("content", content)])]])].

(** The result the specification gives for [/translate], from the content of
    the provider's first choice: the content trimmed when it is text, the
    empty string when it is absent. *)
Definition trimmed_or_empty (content : jsval) : option jsstring :=
  match content with
  | JStr s => Some (trim s)
  | JUndefined | JNull => Some []
  | _ => None
  end.

(** ** The rest of what the handlers leave behind *)

(** A string with no white space or line terminator at either end. *)
Definition clean_ends (s : jsstring) : Prop :=
  (∀ c, head s = Some c → strippable c = false)
  ∧ (∀ c, last s = Some c → strippable c = false).

(** The tag of the [console.error] line of a route's [catch] block. *)
Definition error_tag (r : route) : string :=
  match r with
  | Translate => "translate error:"
  | Chat => "chat error:"
  | VoiceToText => "voice-to-text error:"
  | TextToVoice => "text-to-voice error:"
  end.

(** The [error] text of a route's 400 response. *)
Definition missing_message (r : route) : string :=
  match r with
  | Translate => "Missing text or targetLanguage"
  | Chat => "Missing message"
  | VoiceToText => "No audio file uploaded"
  | TextToVoice => "Missing text"
  end.

(** The key of the JSON body of a route's 200 response; [/text-to-voice]
    answers with the audio itself. *)
Definition success_key (r : route) : option string :=
  match r with
  | Translate => Some "result"
  | Chat => Some "reply"
  | VoiceToText => Some "text"
  | TextToVoice => None
  end.

(** The clock reading [t] at the start of a later turn. *)
Definition set_now (t : N) (w : world) : world :=
  {| w_fs := w_fs w; w_now := t; w_calls := w_calls w;
     w_console := w_console w; w_write := w_write w |}.

(** The temp file of the request gets written: the disk accepts the write
    of [/voice-to-text]; the other routes write nothing. *)
Definition temp_file_written (r : route) (req : request) (w : world) : bool :=
  match r, file_buffer req with
  | VoiceToText, Some buf =>
      match w_write w (tmpPath_of (w_now w)) buf with
      | Written => true
      | WriteFails _ _ => false
      end
  | _, _ => true
  end.

(** * Properties *)

(** ** Strings *)

Lemma starts_with_refl s : starts_with s s = true.
Proof. induction s as [|c s IH]; cbn; [done|]. by rewrite N.eqb_refl. Qed.

Lemma includes_refl s : includes s s = true.
Proof. destruct s; cbn; [done|]. by rewrite N.eqb_refl, starts_with_refl. Qed.

Lemma includes_empty s : includes s [] = true.
Proof. by destruct s. Qed.

Lemma lit_inj : Inj (=) (=) lit.
Proof.
  intros s. unfold lit. induction s as [|a s IH]; intros [|b t] H;
    cbn in H; try done.
  injection H as Hab Hst. apply IH in Hst.
  apply (f_equal ascii_of_N) in Hab. rewrite !ascii_N_embedding in Hab.
  congruence.
Qed.

(** Requests that read different instants from the clock use different temp
    files, and the same instant gives the same file. *)
Lemma tmpPath_of_inj : Inj (=) (=) tmpPath_of.
Proof.
  intros m n H. unfold tmpPath_of in H.
  apply app_inv_head, app_inv_tail in H.
  by apply lit_inj, pretty_N_inj in H.
Qed.

(** ** Values *)

(** The falsy values: [undefined], [null], [false], the two zeros, NaN and
    the empty string. *)
Lemma falsy_values v :
  truthy v = false ↔
  v = JUndefined ∨ v = JNull ∨ v = JBool false
  ∨ (∃ s, v = JNum (S754_zero s)) ∨ v = JNum S754_nan ∨ v = JStr [].
Proof.
  split.
  - destruct v as [| |[]|[]|[]| |]; cbn; intros; try discriminate;
      naive_solver.
  - intros [->|[->|[->|[[s ->]|[->| ->]]]]]; reflexivity.
Qed.

(** A string converts to itself; only an object carrying its own [toString]
    makes a conversion throw. *)
Lemma ToString_string rt s : ToString rt (JStr s) = Normal s.
Proof. reflexivity. Qed.

Lemma converts_string rt s : converts rt (JStr s) = true.
Proof. reflexivity. Qed.

(** ** The handlers, case by case *)

Ltac run :=
  unfold serve, handler, translate, chat, voice_to_text, text_to_voice,
    reply_text, try_catch, bind, await, lift, ret;
  cbv beta iota zeta.

Ltac branch x := destruct x eqn:?; cbv beta iota zeta; try reflexivity.

Lemma translate_run rt openai req w :
  serve rt Translate openai req w =
  if validates Translate req then
    match ToString rt (destructure "targetLanguage" req) with
    | Throw e => caught "translate error:" "Translate failed" e w
    | Normal tl =>
        match ToString rt (destructure "text" req) with
        | Throw e => caught "translate error:" "Translate failed" e w
        | Normal tx =>
            let params := translate_request (translate_prompt tl tx) in
            let w1 := log_call (ChatCompletionsCreate params) w in
            match chat_completions_create openai params with
            | Throw e => caught "translate error:" "Translate failed" e w1
            | Normal resp =>
                match opt_trim rt (first_choice_content resp) with
                | Throw e => caught "translate error:" "Translate failed" e w1
                | Normal t =>
                    (Normal (ok_json (JObj {[ lit "result" := js_or t (JStr []) ]})),
                     w1)
                end
            end
        end
    end
  else (Normal (bad_request "Missing text or targetLanguage"), w).
Proof.
  run. cbn [validates].
  branch (truthy (destructure "text" req)).
  branch (truthy (destructure "targetLanguage" req)).
  cbn [negb orb andb]. cbv beta iota zeta.
  branch (ToString rt (destructure "targetLanguage" req)).
  branch (ToString rt (destructure "text" req)).
  match goal with
  | |- context [chat_completions_create openai ?p] =>
      branch (chat_completions_create openai p)
  end.
  match goal with
  | |- context [opt_trim rt ?c] => branch (opt_trim rt c)
  end.
Qed.

Lemma chat_run rt openai req w :
  serve rt Chat openai req w =
  if validates Chat req then
    match
      (if truthy (destructure "language" req) then
         match ToString rt (destructure "language" req) with
         | Normal l => Normal (lit "Respond in " ++ l ++ lit ".")
         | Throw e => Throw e
         end
       else Normal [])
    with
    | Throw e => caught "chat error:" "Chat failed" e w
    | Normal langNote =>
        let params := chat_request langNote (destructure "message" req) in
        let w1 := log_call (ChatCompletionsCreate params) w in
        match chat_completions_create openai params with
        | Throw e => caught "chat error:" "Chat failed" e w1
        | Normal resp =>
            match opt_trim rt (first_choice_content resp) with
            | Throw e => caught "chat error:" "Chat failed" e w1
            | Normal t =>
                (Normal (ok_json (JObj {[ lit "reply" := js_or t (JStr []) ]})),
                 w1)
            end
        end
    end
  else (Normal (bad_request "Missing message"), w).
Proof.
  run. cbn [validates].
  branch (truthy (destructure "message" req)).
  cbn [negb]. cbv beta iota zeta.
  branch (truthy (destructure "language" req)).
  - branch (ToString rt (destructure "language" req)).
    match goal with
    | |- context [chat_completions_create openai ?p] =>
        branch (chat_completions_create openai p)
    end.
    match goal with
    | |- context [opt_trim rt ?c] => branch (opt_trim rt c)
    end.
  - match goal with
    | |- context [chat_completions_create openai ?p] =>
        branch (chat_completions_create openai p)
    end.
    match goal with
    | |- context [opt_trim rt ?c] => branch (opt_trim rt c)
    end.
Qed.

Lemma voice_to_text_run rt openai req w :
  serve rt VoiceToText openai req w =
  match file_buffer req with
  | None => (Normal (bad_request "No audio file uploaded"), w)
  | Some buf =>
      let tmpPath := tmpPath_of (w_now w) in
      match w_write w tmpPath buf with
      | WriteFails e None =>
          caught "voice-to-text error:" "Voice-to-text failed" e w
      | WriteFails e (Some part) =>
          caught "voice-to-text error:" "Voice-to-text failed" e
            (set_fs (<[tmpPath := part]> (w_fs w)) w)
      | Written =>
          let params := transcription_request tmpPath in
          let w1 :=
            log_call (AudioTranscriptionsCreate params)
              (set_fs (<[tmpPath := buf]> (w_fs w)) w) in
          match audio_transcriptions_create openai params with
          | Throw e =>
              caught "voice-to-text error:" "Voice-to-text failed" e w1
          | Normal transcription =>
              (Normal
                 (ok_json
                    (JObj {[ lit "text" :=
                               js_or
                                 (opt_chain (get_named (lit "text"))
                                    transcription)
                                 (JStr []) ]})),
               set_fs (delete tmpPath (w_fs w1)) w1)
          end
      end
  end.
Proof.
  run.
  branch (file_buffer req).
  unfold Date_now, writeFileSync, bind, get_world, ret.
  cbv beta iota zeta. cbn [hs_world].
  destruct (w_write w (tmpPath_of (w_now w)) l) as [|e [part|]];
    cbv beta iota zeta; try reflexivity.
  branch (audio_transcriptions_create openai
            (transcription_request (tmpPath_of (w_now w)))).
  unfold unlinkSync, bind, get_world. cbv beta iota zeta.
  cbn [invoke modify_world hs_world hs_res log_call set_fs w_fs fst snd].
  rewrite lookup_insert_eq. reflexivity.
Qed.

Lemma text_to_voice_run rt openai req w :
  serve rt TextToVoice openai req w =
  if validates TextToVoice req then
    let params := speech_request (destructure "text" req) in
    let w1 := log_call (AudioSpeechCreate params) w in
    match audio_speech_create openai params with
    | Throw e => caught "text-to-voice error:" "TTS failed" e w1
    | Normal speech =>
        match arrayBuffer speech with
        | Throw e => caught "text-to-voice error:" "TTS failed" e w1
        | Normal payload => (Normal (audio_response payload), w1)
        end
    end
  else (Normal (bad_request "Missing text"), w).
Proof.
  run. cbn [validates].
  branch (truthy (destructure "text" req)).
  cbn [negb]. cbv beta iota zeta.
  branch (audio_speech_create openai (speech_request (destructure "text" req))).
  match goal with
  | |- context [arrayBuffer ?sp] => branch (arrayBuffer sp)
  end.
Qed.

(** Serving [/voice-to-text] in one go is its first half followed, when the
    handler suspends, by its second half on the outcome of the provider. *)
Lemma voice_to_text_turns rt openai req s :
  voice_to_text rt openai req s =
  match vtt_begin req s with
  | (Normal Responded, s1) => (Normal tt, s1)
  | (Normal (Awaiting tmpPath), s1) =>
      vtt_resume rt tmpPath
        (audio_transcriptions_create openai (transcription_request tmpPath)) s1
  | (Throw e, s1) => (Throw e, s1)
  end.
Proof.
  unfold voice_to_text, vtt_begin, vtt_resume, Date_now, writeFileSync,
    try_catch, bind, await, lift, ret, get_world.
  cbv beta iota zeta.
  branch (file_buffer req).
  by destruct (w_write (hs_world s) (tmpPath_of (w_now (hs_world s))) l)
    as [|e [part|]].
Qed.

(** Every handler answers: whatever the request, the provider and the world,
    no exception escapes it. *)
Lemma serve_responds rt r openai req w :
  ∃ res, (serve rt r openai req w).1 = Normal res.
Proof.
  destruct r.
  - rewrite translate_run. unfold caught.
    repeat (case_match; cbn [fst]); eauto.
  - rewrite chat_run. unfold caught.
    repeat (case_match; cbn [fst]); eauto.
  - rewrite voice_to_text_run. unfold caught.
    repeat (case_match; cbn [fst]); eauto.
  - rewrite text_to_voice_run. unfold caught.
    repeat (case_match; cbn [fst]); eauto.
Qed.

(** ** The handlers on the examples of the specification *)

Example trim_strips_both_ends :
  trim ([160; 9]%N ++ lit " Hola, mundo " ++ [10; 8233]%N) = lit "Hola, mundo".
Proof. reflexivity. Qed.

Example ToString_of_an_array :
  ToString example_engine
    (JArr [JStr (lit "a"); JNull; JArr [JBool true; JUndefined]; object []])
  = Normal (lit "a,,true,,[object Object]").
Proof. reflexivity. Qed.

Example ToString_of_an_object_with_toString :
  ToString example_engine (JArr [JStr (lit "a"); object [("toString", JNull)]])
  = Throw (Error (lit "TypeError")
             (lit "Cannot convert object to primitive value")).
Proof. vm_compute. reflexivity. Qed.

Example translate_hola :
  serve example_engine Translate
    (mock (Normal (completion_with (JStr (lit "Hola")))) (Throw boom)
       (Throw boom))
    (json_request
       [("text", JStr (lit "Hello")); ("targetLanguage", JStr (lit "Spanish"))])
    quiet_world
  = (Normal (ok_json (object [("result", JStr (lit "Hola"))])),
     log_call
       (ChatCompletionsCreate
          (translate_request
             (lit "Translate the following text to Spanish and return only the translation:"
              ++ [10; 10]%N ++ lit "Hello")))
       quiet_world).
Proof. vm_compute. reflexivity. Qed.

Example chat_in_spanish :
  serve example_engine Chat
    (mock (Normal (completion_with (JStr (lit "Hola!")))) (Throw boom)
       (Throw boom))
    (json_request
       [("message", JStr (lit "hi")); ("language", JStr (lit "Spanish"))])
    quiet_world
  = (Normal (ok_json (object [("reply", JStr (lit "Hola!"))])),
     log_call
       (ChatCompletionsCreate
          {| cp_model := lit "gpt-4o-mini";
             cp_messages :=
               [ {| role := lit "system";
                    content :=
                      JStr (lit "You are a friendly language partner. Respond in Spanish.") |};
                 {| role := lit "user"; content := JStr (lit "hi") |} ];
             cp_max_tokens := 400;
             cp_temperature := 0.7 |})
       quiet_world).
Proof. vm_compute. reflexivity. Qed.

Example voice_to_text_hello_world :
  serve example_engine VoiceToText
    (mock (Throw boom) (Normal (object [("text", JStr (lit "hello world"))]))
       (Throw boom))
    (audio_request [x52; x49; x46; x46]%byte) quiet_world
  = (Normal (ok_json (object [("text", JStr (lit "hello world"))])),
     log_call
       (AudioTranscriptionsCreate
          {| tp_file := lit "/tmp/record-1730000000000.webm";
             tp_model := lit "gpt-4o-mini-transcribe" |})
       quiet_world).
Proof. vm_compute. reflexivity. Qed.

Example voice_to_text_without_a_file :
  serve example_engine VoiceToText (failing boom) (json_request []) quiet_world
  = (Normal (bad_request "No audio file uploaded"), quiet_world).
Proof. vm_compute. reflexivity. Qed.

Example text_to_voice_body_read_fails :
  (serve example_engine TextToVoice
     (mock (Throw boom) (Throw boom) (Normal {| arrayBuffer := Throw boom |}))
     (json_request [("text", JStr (lit "hi"))]) quiet_world).1
  = Normal (failure "TTS failed" boom).
Proof. vm_compute. reflexivity. Qed.

Example non_text_content_is_a_failure :
  (serve example_engine Chat
     (mock (Normal (completion_with (JBool true))) (Throw boom) (Throw boom))
     (json_request [("message", JStr (lit "hi"))]) quiet_world).1
  = Normal
      (failure "Chat failed"
         (Error (lit "TypeError") (lit "content.trim is not a function"))).
Proof. vm_compute. reflexivity. Qed.

(** ** The JSON bodies of the responses *)

Lemma bad_request_error msg :
  json_field "error" (bad_request msg) = Some (JStr (lit msg)).
Proof. apply lookup_singleton_eq. Qed.

Lemma failure_error msg e :
  json_field "error" (failure msg e) = Some (JStr (lit msg)).
Proof. apply lookup_insert_eq. Qed.

Lemma failure_details msg e :
  json_field "details" (failure msg e)
  = Some (JStr (String_ (message_or_self e))).
Proof.
  unfold json_field, failure, failure_body, res_body.
  rewrite lookup_insert_ne by (intros H; by apply lit_inj in H).
  apply lookup_singleton_eq.
Qed.

(** [details] is the message of the error when it has one, and the printed
    error otherwise; either way the message occurs in it. *)
Lemma details_message e :
  (err_message e ≠ [] → String_ (message_or_self e) = err_message e)
  ∧ includes (String_ (message_or_self e)) (err_message e) = true.
Proof.
  unfold message_or_self. destruct (err_message e) as [|c m] eqn:E; cbn.
  - split; [done | apply includes_empty].
  - split; [done|]. by rewrite N.eqb_refl, starts_with_refl.
Qed.

Lemma details_and_message e :
  includes (String_ (message_or_self e)) (err_message e) = true
  ∧ (err_message e ≠ [] → String_ (message_or_self e) = err_message e).
Proof. destruct (details_message e). by split. Qed.

(** ** Validation *)

(** C4: a request to POST /translate whose [text] or [targetLanguage] is
    absent or the empty string is answered with status 400 and a JSON body
    with an [error] field, and no provider operation is invoked. *)
Theorem translate_missing_field rt openai req w :
  absent_or_empty (destructure "text" req)
  ∨ absent_or_empty (destructure "targetLanguage" req) →
  ∃ res,
    (serve rt Translate openai req w).1 = Normal res
    ∧ statusCode res = 400%N
    ∧ json_field "error" res = Some (JStr (lit "Missing text or targetLanguage"))
    ∧ w_calls (serve rt Translate openai req w).2 = w_calls w.
Proof.
  intros H.
  assert (validates Translate req = false) as Hv.
  { cbn [validates]. apply andb_false_iff.
    destruct H as [[-> | ->] | [-> | ->]]; auto. }
  rewrite translate_run, Hv. cbn [fst snd].
  eexists. split; [reflexivity|].
  split; [reflexivity|]. split; [apply bad_request_error | reflexivity].
Qed.

Lemma translate_missing_field_witness :
  absent_or_empty
    (destructure "targetLanguage" (json_request [("text", JStr (lit "Hello"))]))
  ∧ ∃ res,
      (serve example_engine Translate (failing boom)
         (json_request [("text", JStr (lit "Hello"))]) quiet_world).1
      = Normal res
      ∧ statusCode res = 400%N
      ∧ json_field "error" res
        = Some (JStr (lit "Missing text or targetLanguage"))
      ∧ w_calls
          (serve example_engine Translate (failing boom)
             (json_request [("text", JStr (lit "Hello"))]) quiet_world).2
        = w_calls quiet_world.
Proof.
  split.
  - left. vm_compute. reflexivity.
  - apply translate_missing_field. right. left. vm_compute. reflexivity.
Defined.

(** C10: on POST /chat a [message] that is present but falsy (the empty
    string, 0, false, null), and on POST /text-to-voice a [text] that is
    present but falsy, is answered with status 400, as an absent field is. *)
Theorem present_but_falsy_is_rejected rt openai r f req w o v :
  (r = Chat ∧ f = "message") ∨ (r = TextToVoice ∧ f = "text") →
  req_body req = BodyObject o →
  o !! lit f = Some v →
  truthy v = false →
  ∃ res,
    (serve rt r openai req w).1 = Normal res
    ∧ statusCode res = 400%N
    ∧ json_field "error" res = Some (JStr (lit ("Missing " +:+ f)))
    ∧ w_calls (serve rt r openai req w).2 = w_calls w.
Proof.
  intros Hr Hbody Hf Hv.
  assert (truthy (destructure f req) = false) as Hd.
  { unfold destructure. rewrite Hbody. cbn. by rewrite Hf. }
  destruct Hr as [[-> ->] | [-> ->]].
  - rewrite chat_run. cbn [validates]. rewrite Hd. cbn [fst snd].
    eexists. split; [reflexivity|]. split; [reflexivity|].
    split; [apply bad_request_error | reflexivity].
  - rewrite text_to_voice_run. cbn [validates]. rewrite Hd. cbn [fst snd].
    eexists. split; [reflexivity|]. split; [reflexivity|].
    split; [apply bad_request_error | reflexivity].
Qed.

Lemma present_but_falsy_is_rejected_witness :
  truthy (JNum (S754_zero false)) = false
  ∧ ∃ res,
      (serve example_engine Chat (failing boom)
         (json_request [("message", JNum (S754_zero false))]) quiet_world).1
      = Normal res
      ∧ statusCode res = 400%N
      ∧ json_field "error" res = Some (JStr (lit "Missing message"))
      ∧ w_calls
          (serve example_engine Chat (failing boom)
             (json_request [("message", JNum (S754_zero false))])
             quiet_world).2
        = w_calls quiet_world.
Proof.
  split; [reflexivity|].
  apply (present_but_falsy_is_rejected example_engine (failing boom) Chat
           "message" _ quiet_world
           (list_to_map (prod_map lit id <$> [("message", JNum (S754_zero false))]))
           (JNum (S754_zero false))).
  - left. split; reflexivity.
  - reflexivity.
  - vm_compute. reflexivity.
  - reflexivity.
Defined.

(** ** Successful calls *)

(** C2: a request to POST /text-to-voice with a non-empty [text] for which
    the speech operation of the provider returns a payload of N bytes is
    answered with status 200, a body of exactly those bytes, Content-Type
    audio/mpeg and Content-Length N. *)
Theorem text_to_voice_relays_payload rt openai req w speech payload :
  truthy (destructure "text" req) = true →
  audio_speech_create openai (speech_request (destructure "text" req))
  = Normal speech →
  arrayBuffer speech = Normal payload →
  ∃ res,
    (serve rt TextToVoice openai req w).1 = Normal res
    ∧ statusCode res = 200%N
    ∧ res_body res = SentBuffer payload
    ∧ headers res !! "Content-Type" = Some (HStr (lit "audio/mpeg"))
    ∧ headers res !! "Content-Length"
      = Some (HStr (lit (pretty (N.of_nat (length payload))))).
Proof.
  intros Ht Hs Hb.
  rewrite text_to_voice_run. cbn [validates]. rewrite Ht. cbv zeta.
  rewrite Hs, Hb. cbn [fst].
  exists (audio_response payload).
  split; [reflexivity|]. split; [reflexivity|]. split; [reflexivity|].
  unfold audio_response, headers. split.
  - rewrite !lookup_insert_ne by done. apply lookup_singleton_eq.
  - apply lookup_insert_eq.
Qed.

Lemma text_to_voice_relays_payload_witness :
  ∃ res,
    (serve example_engine TextToVoice
       (mock (Throw boom) (Throw boom)
          (Normal {| arrayBuffer := Normal [x49; x44; x33]%byte |}))
       (json_request [("text", JStr (lit "hi"))]) quiet_world).1
    = Normal res
    ∧ statusCode res = 200%N
    ∧ res_body res = SentBuffer [x49; x44; x33]%byte
    ∧ headers res !! "Content-Type" = Some (HStr (lit "audio/mpeg"))
    ∧ headers res !! "Content-Length" = Some (HStr (lit "3")).
Proof.
  apply (text_to_voice_relays_payload example_engine _ _ quiet_world
           {| arrayBuffer := Normal [x49; x44; x33]%byte |}).
  - vm_compute. reflexivity.
  - reflexivity.
  - reflexivity.
Defined.

(** C6: a request to POST /translate with non-empty [text] and
    [targetLanguage] whose provider call succeeds is answered with status 200
    and the body [{ result: r }], where [r] is the trimmed text content of
    the provider's first choice, or the empty string when that content is
    absent. *)
Theorem translate_returns_trimmed_content rt openai req w tx tl resp r :
  destructure "text" req = JStr tx → tx ≠ [] →
  destructure "targetLanguage" req = JStr tl → tl ≠ [] →
  chat_completions_create openai (translate_request (translate_prompt tl tx))
  = Normal resp →
  trimmed_or_empty (first_choice_content resp) = Some r →
  ∃ res,
    (serve rt Translate openai req w).1 = Normal res
    ∧ statusCode res = 200%N
    ∧ res_body res = SentJson (JObj {[ lit "result" := JStr r ]}).
Proof.
  intros Htx Hne Htl Hnl Hresp Hr.
  rewrite translate_run. cbn [validates]. rewrite Htx, Htl.
  destruct tx as [|c tx]; [done|]. destruct tl as [|d tl]; [done|].
  cbn [truthy andb ToString]. cbv zeta. rewrite Hresp.
  destruct (first_choice_content resp) as [| | | |s| |]; try discriminate;
    injection Hr as <-; cbn [opt_trim fst].
  - eexists. split; [reflexivity|]. split; reflexivity.
  - eexists. split; [reflexivity|]. split; reflexivity.
  - eexists. split; [reflexivity|]. split; [reflexivity|].
    cbn [ok_json res_body]. do 3 f_equal.
    unfold js_or. by destruct (trim s).
Qed.

Lemma translate_returns_trimmed_content_witness :
  ∃ res,
    (serve example_engine Translate
       (mock (Normal (completion_with (JStr (lit " Hola ")))) (Throw boom)
          (Throw boom))
       (json_request
          [("text", JStr (lit "Hello")); ("targetLanguage", JStr (lit "Spanish"))])
       quiet_world).1
    = Normal res
    ∧ statusCode res = 200%N
    ∧ res_body res = SentJson (JObj {[ lit "result" := JStr (lit "Hola") ]}).
Proof.
  apply (translate_returns_trimmed_content example_engine _ _ quiet_world
           (lit "Hello") (lit "Spanish")
           (completion_with (JStr (lit " Hola ")))).
  - vm_compute. reflexivity.
  - discriminate.
  - vm_compute. reflexivity.
  - discriminate.
  - reflexivity.
  - vm_compute. reflexivity.
Defined.

(** ** The operations invoked on the provider *)

Lemma new_calls_none w w' : w_calls w' = w_calls w → new_calls w w' = [].
Proof. unfold new_calls. intros ->. apply drop_all. Qed.

Lemma new_calls_one w w' c :
  w_calls w' = w_calls w ++ [c] → new_calls w w' = [c].
Proof. unfold new_calls. intros ->. apply drop_app_length. Qed.

(** What a route invokes on the provider, read off its cases: nothing, or
    the one call named here. *)
Ltac count_calls :=
  unfold caught; cbn [fst snd];
  first [ rewrite new_calls_none by reflexivity
        | erewrite new_calls_one by reflexivity ].

(** C7: every provider call made by the translate operation uses temperature
    0.1 and a cap of 500 tokens, and every provider call made by the chat
    operation uses temperature 0.7 and a cap of 400 tokens. *)
Theorem sampling_parameters rt openai req w :
  Forall (chat_call_with 0.1 500)
    (new_calls w (serve rt Translate openai req w).2)
  ∧ Forall (chat_call_with 0.7 400)
      (new_calls w (serve rt Chat openai req w).2).
Proof.
  split.
  - rewrite translate_run. cbv zeta.
    repeat case_match; count_calls;
      repeat constructor.
  - rewrite chat_run. cbv zeta.
    repeat case_match; count_calls;
      repeat constructor.
Qed.

(** ** Provider failures *)

(** C3: on each of the four POST routes, for a request whose validation
    passes, when the provider call of the handler throws an error the
    response has status 500 and a JSON body whose [error] field names the
    failing operation and whose [details] field contains the message of the
    provider's error; the handler answers, no exception escapes it.  The
    call is made, and so [details] is the provider's, whenever the fields the
    handler interpolates convert to strings and the temp file is written. *)
Theorem provider_failure_is_500 rt r openai req w e :
  validates r req = true →
  (∀ c, c ∈ new_calls w (serve rt r openai req w).2 → rejects openai c e) →
  ∃ res details,
    (serve rt r openai req w).1 = Normal res
    ∧ statusCode res = 500%N
    ∧ json_field "error" res = Some (JStr (lit (failed_message r)))
    ∧ json_field "details" res = Some (JStr details)
    ∧ (forallb (converts rt) (interpolated r req) = true →
       temp_file_written r req w = true →
       length (new_calls w (serve rt r openai req w).2) = 1
       ∧ includes details (err_message e) = true
       ∧ (err_message e ≠ [] → details = err_message e)).
Proof.
  destruct r; cbn [failed_message];
    [ rewrite translate_run | rewrite chat_run | rewrite voice_to_text_run
    | rewrite text_to_voice_run ];
    cbv zeta; cbn [interpolated temp_file_written]; unfold converts;
    repeat first [ case_match | progress cbn [forallb andb] ];
    count_calls; intros Hv Hrej;
    try congruence;
    try (cbn [validates] in Hv;
         match goal with
         | H : file_buffer req = None |- _ => rewrite H in Hv
         end;
         by apply bool_decide_eq_true in Hv as [? [=]]);
    try (exfalso;
         specialize (Hrej _ (list_elem_of_here _ _)); cbn [rejects] in Hrej;
         congruence);
    (eexists _, _; split; [reflexivity|]; split; [reflexivity|];
     split; [apply failure_error|]; split; [apply failure_details|]);
    intros Hconv Hwritten; try discriminate;
    specialize (Hrej _ (list_elem_of_here _ _)); cbn [rejects] in Hrej;
    (split; [reflexivity|]);
    match goal with
    | |- context [message_or_self ?e'] =>
        replace e' with e by congruence
    end;
    apply details_and_message.
Qed.

Lemma provider_failure_is_500_witness :
  ∃ res details,
    (serve example_engine Translate (failing boom)
       (json_request
          [("text", JStr (lit "Hello"));
           ("targetLanguage", JStr (lit "Spanish"))])
       quiet_world).1
    = Normal res
    ∧ statusCode res = 500%N
    ∧ json_field "error" res = Some (JStr (lit (failed_message Translate)))
    ∧ json_field "details" res = Some (JStr details)
    ∧ (forallb (converts example_engine)
         (interpolated Translate
            (json_request
               [("text", JStr (lit "Hello"));
                ("targetLanguage", JStr (lit "Spanish"))])) = true →
       temp_file_written Translate
         (json_request
            [("text", JStr (lit "Hello"));
             ("targetLanguage", JStr (lit "Spanish"))])
         quiet_world = true →
       length
         (new_calls quiet_world
            (serve example_engine Translate (failing boom)
               (json_request
                  [("text", JStr (lit "Hello"));
                   ("targetLanguage", JStr (lit "Spanish"))])
               quiet_world).2) = 1
       ∧ includes details (err_message boom) = true
       ∧ (err_message boom ≠ [] → details = err_message boom)).
Proof.
  apply (provider_failure_is_500 example_engine Translate (failing boom)
           (json_request
              [("text", JStr (lit "Hello"));
               ("targetLanguage", JStr (lit "Spanish"))])
           quiet_world boom).
  - vm_compute. reflexivity.
  - intros c _. destruct c; reflexivity.
Defined.

(** C5 as stated fails: POST /translate with only [text] and POST /translate
    with only [targetLanguage] get the same 400 response, whose message
    names [text] also when [text] is there and only [targetLanguage] is
    missing: the message does not single out the field that is missing. *)
Lemma error_message_does_not_single_out_the_field :
  field_missing Translate "text"
    (json_request [("text", JStr (lit "Hello"))]) = false
  ∧ field_missing Translate "targetLanguage"
      (json_request [("text", JStr (lit "Hello"))]) = true
  ∧ field_missing Translate "text"
      (json_request [("targetLanguage", JStr (lit "Spanish"))]) = true
  ∧ field_missing Translate "targetLanguage"
      (json_request [("targetLanguage", JStr (lit "Spanish"))]) = false
  ∧ (serve example_engine Translate (failing boom)
       (json_request [("text", JStr (lit "Hello"))]) quiet_world).1
    = Normal (bad_request "Missing text or targetLanguage")
  ∧ (serve example_engine Translate (failing boom)
       (json_request [("targetLanguage", JStr (lit "Spanish"))])
       quiet_world).1
    = Normal (bad_request "Missing text or targetLanguage")
  ∧ json_field "error" (bad_request "Missing text or targetLanguage")
    = Some (JStr (lit "Missing text or targetLanguage"))
  ∧ includes (lit "Missing text or targetLanguage") (lit "text") = true.
Proof. vm_compute. repeat split. Qed.

(** C5, amended: whenever a route answers 400, the [error] message of the
    response is the fixed message of the route, which names every required
    field of the route.  Some required field is then missing or empty; on
    /chat, /voice-to-text and /text-to-voice, which require one field, the
    field named is the one that is missing, while the message of /translate
    names both [text] and [targetLanguage] whichever is missing. *)
Theorem validation_error_is_the_message_of_the_route
    rt r openai req w res :
  (serve rt r openai req w).1 = Normal res →
  statusCode res = 400%N →
  json_field "error" res = Some (JStr (lit (missing_message r)))
  ∧ (∀ f, f ∈ required_fields r →
          includes (lit (missing_message r)) (lit f) = true)
  ∧ (∃ f, f ∈ required_fields r ∧ field_missing r f req = true)
  ∧ (r ≠ Translate →
     ∀ f, f ∈ required_fields r → field_missing r f req = true).
Proof.
  intros Hres Hstatus.
  assert (∀ rsp : response,
            Normal rsp = Normal res → statusCode rsp ≠ 400%N → False) as Hno.
  { intros rsp [= <-] Hne. contradiction. }
  assert (∀ f, f ∈ required_fields r →
               includes (lit (missing_message r)) (lit f) = true) as Hnames.
  { intros f Hf. destruct r; cbn [required_fields] in Hf;
      repeat (apply elem_of_cons in Hf as [-> | Hf]; [by vm_compute|]);
      by apply elem_of_nil in Hf. }
  destruct r; revert Hres;
    [ rewrite translate_run | rewrite chat_run | rewrite voice_to_text_run
    | rewrite text_to_voice_run ];
    cbv zeta; unfold caught;
    repeat case_match; cbn [fst]; intros Hres;
    try (exfalso; by apply (Hno _ Hres));
    injection Hres as <-;
    (split; [apply bad_request_error|]); (split; [exact Hnames|]).
  - split; [|done].
    match goal with
    | H : validates Translate req = false |- _ =>
        cbn [validates] in H; apply andb_false_iff in H as [H | H]
    end.
    + exists "text". split; [set_solver|]. cbn. by rewrite H.
    + exists "targetLanguage". split; [set_solver|]. cbn. by rewrite H.
  - assert (field_missing Chat "message" req = true) as Hm.
    { match goal with
      | H : validates Chat req = false |- _ =>
          cbn [validates] in H; cbn; by rewrite H
      end. }
    split; [exists "message"; split; [set_solver | done]|].
    intros _ f Hf. cbn [required_fields] in Hf.
    apply list_elem_of_singleton in Hf as ->. done.
  - assert (field_missing VoiceToText "audio" req = true) as Hm
      by (cbn; by apply bool_decide_eq_true).
    split; [exists "audio"; split; [set_solver | done]|].
    intros _ f Hf. done.
  - assert (field_missing TextToVoice "text" req = true) as Hm.
    { match goal with
      | H : validates TextToVoice req = false |- _ =>
          cbn [validates] in H; cbn; by rewrite H
      end. }
    split; [exists "text"; split; [set_solver | done]|].
    intros _ f Hf. cbn [required_fields] in Hf.
    apply list_elem_of_singleton in Hf as ->. done.
Qed.

Lemma validation_error_is_the_message_of_the_route_witness :
  json_field "error" (bad_request "Missing message")
  = Some (JStr (lit (missing_message Chat)))
  ∧ (∀ f, f ∈ required_fields Chat →
          includes (lit (missing_message Chat)) (lit f) = true)
  ∧ (∃ f, f ∈ required_fields Chat
          ∧ field_missing Chat f
              (json_request [("language", JStr (lit "Spanish"))]) = true)
  ∧ (Chat ≠ Translate →
     ∀ f, f ∈ required_fields Chat →
          field_missing Chat f
            (json_request [("language", JStr (lit "Spanish"))]) = true).
Proof.
  apply (validation_error_is_the_message_of_the_route example_engine Chat
           (failing boom)
           (json_request [("language", JStr (lit "Spanish"))]) quiet_world
           (bad_request "Missing message")).
  - vm_compute. reflexivity.
  - reflexivity.
Defined.

(** ** How many provider operations a request invokes *)

(** C8 as stated fails: POST /translate with the body
    [{ text: "hi", targetLanguage: { toString: null } }] passes validation
    (an object is truthy), the template literal of the prompt cannot convert
    [targetLanguage] to a string, and the [catch] block answers 500 without
    any provider operation having been invoked. *)
Lemma exactly_one_call_counterexample :
  validates Translate
    (json_request
       [("text", JStr (lit "hi"));
        ("targetLanguage", object [("toString", JNull)])]) = true
  ∧ (serve example_engine Translate
       (mock (Normal (completion_with (JStr (lit "salut")))) (Throw boom)
          (Throw boom))
       (json_request
          [("text", JStr (lit "hi"));
           ("targetLanguage", object [("toString", JNull)])])
       quiet_world).1
    = Normal
        (failure "Translate failed"
           (Error (lit "TypeError")
              (lit "Cannot convert object to primitive value")))
  ∧ new_calls quiet_world
      (serve example_engine Translate
         (mock (Normal (completion_with (JStr (lit "salut")))) (Throw boom)
            (Throw boom))
         (json_request
            [("text", JStr (lit "hi"));
             ("targetLanguage", object [("toString", JNull)])])
         quiet_world).2
    = [].
Proof. vm_compute. repeat split. Qed.

(** C8, amended: every request to one of the four POST routes invokes at most
    one provider operation; none when validation fails, which is when the
    answer is 400; exactly one when validation passes, every field the
    handler puts through a template literal converts to a string and, on
    /voice-to-text, the temp file is written; and none, with a 500 answer,
    when validation passes and such a conversion or the write throws. *)
Theorem provider_call_count rt r openai req w :
  let calls := new_calls w (serve rt r openai req w).2 in
  length calls ≤ 1
  ∧ (validates r req = false →
     calls = [] ∧ ∃ res, (serve rt r openai req w).1 = Normal res
                         ∧ statusCode res = 400%N)
  ∧ (∀ res, (serve rt r openai req w).1 = Normal res →
            statusCode res = 400%N → validates r req = false ∧ calls = [])
  ∧ (validates r req = true →
     forallb (converts rt) (interpolated r req) = true →
     temp_file_written r req w = true →
     length calls = 1)
  ∧ (validates r req = true →
     forallb (converts rt) (interpolated r req) = false
     ∨ temp_file_written r req w = false →
     calls = [] ∧ ∃ res, (serve rt r openai req w).1 = Normal res
                         ∧ statusCode res = 500%N).
Proof.
  assert (∀ x res : response,
            Normal x = Normal res → statusCode res = 400%N →
            statusCode x = 400%N) as Hst by (by intros x res [= ->]).
  destruct r;
    [ rewrite translate_run | rewrite chat_run | rewrite voice_to_text_run
    | rewrite text_to_voice_run ];
    cbv zeta; cbn [validates interpolated temp_file_written]; unfold converts;
    repeat first [ case_match | progress cbn [forallb andb] ];
    count_calls; cbn [length];
    repeat split; intros;
    repeat match goal with
      | H : Normal _ = Normal _, H' : statusCode _ = 400%N |- _ =>
          apply (Hst _ _ H) in H'; clear H
      | H : _ ∨ _ |- _ => destruct H
      | H : bool_decide _ = true |- _ => apply bool_decide_eq_true in H
      | H : is_Some None |- _ => destruct H
      end;
    try discriminate; try congruence; try lia; eauto;
    try (apply bool_decide_eq_false; by intros [? [=]]).
Qed.

Example unwritable_temp_file_means_no_call :
  validates VoiceToText (audio_request [x52; x49]%byte) = true
  ∧ serve example_engine VoiceToText
      (mock (Throw boom) (Normal JNull) (Throw boom))
      (audio_request [x52; x49]%byte) (read_only_world EROFS)
    = caught "voice-to-text error:" "Voice-to-text failed" EROFS
        (read_only_world EROFS).
Proof. vm_compute. repeat split. Qed.

(** ** The temp file of [/voice-to-text] *)

(** When the transcription succeeds, the temp file the request wrote is gone
    after the response. *)
Lemma temp_file_removed_on_success rt openai req w buf transcription :
  file_buffer req = Some buf →
  w_write w (tmpPath_of (w_now w)) buf = Written →
  audio_transcriptions_create openai
    (transcription_request (tmpPath_of (w_now w))) = Normal transcription →
  w_fs (serve rt VoiceToText openai req w).2 !! tmpPath_of (w_now w) = None.
Proof.
  intros Hbuf Hw Hok. rewrite voice_to_text_run, Hbuf. cbv zeta.
  rewrite Hw, Hok.
  cbn [snd set_fs w_fs log_call]. apply lookup_delete_eq.
Qed.

(** C1, as the code has it on the failure path: when the transcription call
    of a request that wrote its temp file throws, the response is the 500 of
    the [catch] block and the temp file is still there, with the audio in
    it. *)
Theorem temp_file_survives_provider_failure rt openai req w buf e :
  file_buffer req = Some buf →
  w_write w (tmpPath_of (w_now w)) buf = Written →
  audio_transcriptions_create openai
    (transcription_request (tmpPath_of (w_now w))) = Throw e →
  (serve rt VoiceToText openai req w).1
  = Normal (failure "Voice-to-text failed" e)
  ∧ w_fs (serve rt VoiceToText openai req w).2 !! tmpPath_of (w_now w)
    = Some buf.
Proof.
  intros Hbuf Hw Hthrow. rewrite voice_to_text_run, Hbuf. cbv zeta.
  rewrite Hw, Hthrow. unfold caught.
  cbn [fst snd set_fs w_fs log_call log_console].
  split; [reflexivity | apply lookup_insert_eq].
Qed.

Lemma temp_file_survives_provider_failure_witness :
  (serve example_engine VoiceToText (failing boom)
     (audio_request [x52; x49; x46; x46]%byte) quiet_world).1
  = Normal (failure "Voice-to-text failed" boom)
  ∧ w_fs
      (serve example_engine VoiceToText (failing boom)
         (audio_request [x52; x49; x46; x46]%byte) quiet_world).2
    !! lit "/tmp/record-1730000000000.webm"
    = Some [x52; x49; x46; x46]%byte.
Proof.
  exact (temp_file_survives_provider_failure example_engine (failing boom)
           (audio_request [x52; x49; x46; x46]%byte) quiet_world
           [x52; x49; x46; x46]%byte boom eq_refl eq_refl eq_refl).
Defined.

(** The first half of a request with an audio file: it reads the clock,
    writes the temp file, invokes the transcription and suspends. *)
Lemma vtt_begin_run req res w buf :
  file_buffer req = Some buf →
  w_write w (tmpPath_of (w_now w)) buf = Written →
  turn (vtt_begin req) res w
  = (Normal (Awaiting (tmpPath_of (w_now w))), res,
     log_call
       (AudioTranscriptionsCreate (transcription_request (tmpPath_of (w_now w))))
       (set_fs (<[tmpPath_of (w_now w) := buf]> (w_fs w)) w)).
Proof.
  intros Hbuf Hw.
  unfold turn, vtt_begin, Date_now, writeFileSync, try_catch, bind, ret,
    get_world.
  cbv beta iota zeta. rewrite Hbuf. cbv beta iota zeta. cbn [hs_world].
  rewrite Hw. reflexivity.
Qed.

(** The second half on a successful transcription: whatever is at the path
    of the temp file is gone afterwards. *)
Lemma vtt_resume_removes rt path transcription res w :
  w_fs (turn (vtt_resume rt path (Normal transcription)) res w).2 !! path
  = None.
Proof.
  unfold turn, vtt_resume, unlinkSync, try_catch, bind, await, lift, ret,
    get_world.
  cbv beta iota zeta. cbn [hs_world].
  destruct (w_fs w !! path) eqn:E; cbv beta iota zeta.
  - cbn [modify_world hs_world hs_res set_fs w_fs res_json modify_res snd].
    apply lookup_delete_eq.
  - cbn [throw hs_world hs_res w_fs res_json modify_res snd]. exact E.
Qed.

(** C9, as the code has it: two requests whose handlers start within the
    same millisecond, and whose writes the disk accepts, suspend on the same
    temp file.  The second request
    overwrites the audio of the first, and when the first resumes and cleans
    up it deletes the file the second is still waiting on. *)
Theorem same_instant_same_temp_file rt reqA reqB bufA bufB w :
  file_buffer reqA = Some bufA →
  file_buffer reqB = Some bufB →
  w_write w (tmpPath_of (w_now w)) bufA = Written →
  w_write w (tmpPath_of (w_now w)) bufB = Written →
  ∃ path resA resB w1 w2,
    turn (vtt_begin reqA) fresh_res w = (Normal (Awaiting path), resA, w1)
    ∧ turn (vtt_begin reqB) fresh_res w1 = (Normal (Awaiting path), resB, w2)
    ∧ w_fs w1 !! path = Some bufA
    ∧ w_fs w2 !! path = Some bufB
    ∧ ∀ transcription,
        w_fs (turn (vtt_resume rt path (Normal transcription)) resA w2).2
        !! path = None.
Proof.
  intros HA HB HwA HwB.
  eexists _, _, _, _, _.
  split; [by apply vtt_begin_run|].
  split; [by rewrite (vtt_begin_run _ _ _ _ HB)|].
  cbn [set_fs log_call w_fs].
  split; [apply lookup_insert_eq|]. split; [apply lookup_insert_eq|].
  intros transcription. apply vtt_resume_removes.
Qed.

Lemma same_instant_same_temp_file_witness :
  ∃ path resA resB w1 w2,
    turn (vtt_begin (audio_request [x41]%byte)) fresh_res quiet_world
    = (Normal (Awaiting path), resA, w1)
    ∧ turn (vtt_begin (audio_request [x42]%byte)) fresh_res w1
      = (Normal (Awaiting path), resB, w2)
    ∧ w_fs w1 !! path = Some [x41]%byte
    ∧ w_fs w2 !! path = Some [x42]%byte
    ∧ ∀ transcription,
        w_fs
          (turn (vtt_resume example_engine path (Normal transcription)) resA
             w2).2
        !! path = None.
Proof.
  exact (same_instant_same_temp_file example_engine
           (audio_request [x41]%byte) (audio_request [x42]%byte)
           [x41]%byte [x42]%byte quiet_world eq_refl eq_refl eq_refl
           eq_refl).
Defined.

(** * More of the gateway *)

(** ** What [trim] keeps and what it removes *)

Lemma trimStart_split s :
  ∃ p, s = p ++ trimStart s ∧ Forall (λ c, strippable c = true) p.
Proof.
  induction s as [|c s [p [Hs Hp]]]; cbn.
  - by exists [].
  - destruct (strippable c) eqn:Hc.
    + exists (c :: p). split; [by rewrite Hs at 1 | by constructor].
    + by exists [].
Qed.

Lemma trimStart_head s c :
  head (trimStart s) = Some c → strippable c = false.
Proof.
  induction s as [|d s IH]; cbn; [done|].
  destruct (strippable d) eqn:Hd; [done|]. cbn. by intros [= <-].
Qed.

Lemma trimEnd_split s :
  ∃ q, s = trimEnd s ++ q ∧ Forall (λ c, strippable c = true) q.
Proof.
  destruct (trimStart_split (reverse s)) as [p [Hs Hp]].
  exists (reverse p). split.
  - unfold trimEnd. rewrite <- reverse_app, <- Hs. by rewrite reverse_involutive.
  - by apply Forall_reverse.
Qed.

Lemma trimEnd_last s c :
  last (trimEnd s) = Some c → strippable c = false.
Proof. unfold trimEnd. rewrite last_reverse. apply trimStart_head. Qed.

(** [trim] strips a run of white space from each end and nothing else, and
    what it returns has white space at neither end. *)
Lemma trim_split s :
  ∃ p q,
    s = p ++ trim s ++ q
    ∧ Forall (λ c, strippable c = true) p
    ∧ Forall (λ c, strippable c = true) q
    ∧ clean_ends (trim s).
Proof.
  destruct (trimStart_split s) as [p [Hs Hp]].
  destruct (trimEnd_split (trimStart s)) as [q [Hu Hq]].
  exists p, q. split; [|split; [done|split; [done|]]].
  - unfold trim. by rewrite <- Hu.
  - split; intros c Hc.
    + apply (trimStart_head s). rewrite Hu.
      unfold trim in Hc. by destruct (trimEnd (trimStart s)).
    + by apply (trimEnd_last (trimStart s)).
Qed.

Lemma clean_ends_nil : clean_ends [].
Proof. by split. Qed.

(** What [x?.trim() || ""] is for a value [x] on which it does not throw. *)
Lemma opt_trim_text rt v t :
  opt_trim rt v = Normal t →
  ∃ r, js_or t (JStr []) = JStr r
       ∧ clean_ends r
       ∧ trimmed_or_empty v = Some r.
Proof.
  destruct v as [| | | |s| |]; cbn; intros [= <-].
  - exists []. split; [done|]. split; [apply clean_ends_nil | done].
  - exists []. split; [done|]. split; [apply clean_ends_nil | done].
  - exists (trim s). split; [unfold js_or; by destruct (trim s)|].
    split; [|done]. by destruct (trim_split s) as (? & ? & ? & ? & ? & ?).
Qed.

(** ** The text of a 200 response *)

(** X1: whenever POST /translate or POST /chat answers 200, the handler has
    made exactly one provider call, that call succeeded, and the body is the
    object with the single key [result] (resp. [reply]) holding a string:
    the content of the provider's first choice trimmed (the empty string when
    there is none), with no white space or line terminator at either end. *)
Theorem reply_has_clean_ends rt r k openai req w res :
  (r = Translate ∧ k = "result") ∨ (r = Chat ∧ k = "reply") →
  (serve rt r openai req w).1 = Normal res →
  statusCode res = 200%N →
  ∃ text params resp,
    res_body res = SentJson (JObj {[ lit k := JStr text ]})
    ∧ clean_ends text
    ∧ new_calls w (serve rt r openai req w).2 = [ChatCompletionsCreate params]
    ∧ chat_completions_create openai params = Normal resp
    ∧ trimmed_or_empty (first_choice_content resp) = Some text.
Proof.
  intros Hr Hres Hstatus.
  assert (∀ rsp : response,
            Normal rsp = Normal res → statusCode rsp ≠ 200%N → False) as Hno.
  { intros rsp [= <-] Hne. contradiction. }
  destruct Hr as [[-> ->] | [-> ->]]; revert Hres;
    [ rewrite translate_run | rewrite chat_run ];
    cbv zeta; unfold caught;
    repeat case_match; cbn [fst snd]; intros Hres;
    try (exfalso; by apply (Hno _ Hres));
    injection Hres as <-;
    match goal with
    | H : opt_trim _ _ = Normal _ |- _ =>
        apply opt_trim_text in H as (text & -> & Hclean & Htext)
    end;
    eexists text, _, _;
    (split; [reflexivity|]); (split; [exact Hclean|]);
    (split; [by apply new_calls_one|]); (split; [eassumption|exact Htext]).
Qed.

Lemma reply_has_clean_ends_witness :
  ∃ text params resp,
    res_body (ok_json (object [("result", JStr (lit "Hola"))]))
    = SentJson (JObj {[ lit "result" := JStr text ]})
    ∧ clean_ends text
    ∧ new_calls quiet_world
        (serve example_engine Translate
           (mock (Normal (completion_with (JStr (lit " Hola ")))) (Throw boom)
              (Throw boom))
           (json_request
              [("text", JStr (lit "Hello"));
               ("targetLanguage", JStr (lit "Spanish"))])
           quiet_world).2
      = [ChatCompletionsCreate params]
    ∧ chat_completions_create
        (mock (Normal (completion_with (JStr (lit " Hola ")))) (Throw boom)
           (Throw boom)) params
      = Normal resp
    ∧ trimmed_or_empty (first_choice_content resp) = Some text.
Proof.
  apply (reply_has_clean_ends example_engine Translate "result"
           (mock (Normal (completion_with (JStr (lit " Hola ")))) (Throw boom)
              (Throw boom))
           (json_request
              [("text", JStr (lit "Hello"));
               ("targetLanguage", JStr (lit "Spanish"))])
           quiet_world).
  - left. split; reflexivity.
  - vm_compute. reflexivity.
  - reflexivity.
Defined.

(** ** A conversation turn *)

(** X2: POST /chat with a truthy [message] sends the provider the system
    instruction followed by the language note and the message itself,
    unconverted, as the user turn.  The note is empty when [language] is
    absent or falsy and ["Respond in <language>."] when it is a non-empty
    string.  When the provider answers with text, or with no content, the
    response is 200 with [{ reply }], the trimmed text or the empty
    string. *)
Theorem chat_replies rt openai req w note resp reply :
  truthy (destructure "message" req) = true →
  (truthy (destructure "language" req) = false ∧ note = [])
  ∨ (∃ l, destructure "language" req = JStr l ∧ l ≠ []
          ∧ note = lit "Respond in " ++ l ++ lit ".") →
  chat_completions_create openai
    (chat_request note (destructure "message" req)) = Normal resp →
  trimmed_or_empty (first_choice_content resp) = Some reply →
  serve rt Chat openai req w
  = (Normal (ok_json (JObj {[ lit "reply" := JStr reply ]})),
     log_call
       (ChatCompletionsCreate (chat_request note (destructure "message" req)))
       w).
Proof.
  intros Hm Hl Hresp Hreply.
  assert (opt_trim rt (first_choice_content resp) = Normal JUndefined
          ∧ reply = []
          ∨ ∃ s, opt_trim rt (first_choice_content resp) = Normal (JStr (trim s))
                 ∧ reply = trim s) as Htrim.
  { destruct (first_choice_content resp) as [| | | |s| |];
      try discriminate; injection Hreply as <-; eauto. }
  rewrite chat_run. cbn [validates]. rewrite Hm.
  destruct Hl as [[Hl ->] | (l & Hl & Hne & ->)].
  - rewrite Hl. cbv zeta. rewrite Hresp.
    destruct Htrim as [[-> ->] | (s & -> & ->)]; [reflexivity|].
    unfold js_or. by destruct (trim s).
  - rewrite Hl. destruct l as [|c l]; [done|].
    cbn [truthy ToString]. cbv zeta. rewrite Hresp.
    destruct Htrim as [[-> ->] | (s & -> & ->)]; [reflexivity|].
    unfold js_or. by destruct (trim s).
Qed.

Lemma chat_replies_witness :
  serve example_engine Chat
    (mock (Normal (completion_with (JStr (lit "Hola! ")))) (Throw boom)
       (Throw boom))
    (json_request
       [("message", JStr (lit "hi")); ("language", JStr (lit "Spanish"))])
    quiet_world
  = (Normal (ok_json (JObj {[ lit "reply" := JStr (lit "Hola!") ]})),
     log_call
       (ChatCompletionsCreate
          (chat_request (lit "Respond in " ++ lit "Spanish" ++ lit ".")
             (destructure "message"
                (json_request
                   [("message", JStr (lit "hi"));
                    ("language", JStr (lit "Spanish"))]))))
       quiet_world).
Proof.
  apply (chat_replies example_engine _ _ quiet_world _
           (completion_with (JStr (lit "Hola! ")))).
  - vm_compute. reflexivity.
  - right. exists (lit "Spanish"). split; [vm_compute; reflexivity|].
    split; [discriminate | reflexivity].
  - reflexivity.
  - vm_compute. reflexivity.
Defined.

(** ** A transcription *)

(** X3: when the temp file of an uploaded file, empty or not, is written and
    its transcription succeeds, POST /voice-to-text answers 200 with [{ text }]: the [text] of the
    transcription when it has a truthy one, and the empty string when the
    transcription is [undefined] or [null] or its [text] is absent or
    falsy.  Exactly one provider operation has been invoked, on the temp file
    of the request. *)
Theorem voice_to_text_answers rt openai req w buf transcription :
  file_buffer req = Some buf →
  w_write w (tmpPath_of (w_now w)) buf = Written →
  audio_transcriptions_create openai
    (transcription_request (tmpPath_of (w_now w))) = Normal transcription →
  ∃ text,
    (serve rt VoiceToText openai req w).1
    = Normal (ok_json (JObj {[ lit "text" := text ]}))
    ∧ new_calls w (serve rt VoiceToText openai req w).2
      = [AudioTranscriptionsCreate
           (transcription_request (tmpPath_of (w_now w)))]
    ∧ (∀ o v, transcription = JObj o → o !! lit "text" = Some v →
              truthy v = true → text = v)
    ∧ (nullish transcription = true
       ∨ truthy (get_named (lit "text") transcription) = false →
       text = JStr []).
Proof.
  intros Hbuf Hw Hok. rewrite voice_to_text_run, Hbuf. cbv zeta.
  rewrite Hw, Hok.
  cbn [fst snd]. eexists. split; [reflexivity|].
  split; [by apply new_calls_one|]. split.
  - intros o v -> Hv Ht. unfold opt_chain, js_or, get_named.
    cbn [nullish]. rewrite Hv. cbn [from_option id]. by rewrite Ht.
  - unfold opt_chain, js_or. intros [Hn | Hf].
    + by rewrite Hn.
    + destruct (nullish transcription); [done|]. by rewrite Hf.
Qed.

Lemma voice_to_text_answers_witness :
  ∃ text,
    (serve example_engine VoiceToText
       (mock (Throw boom) (Normal (object [("text", JStr (lit "hello world"))]))
          (Throw boom))
       (audio_request []) quiet_world).1
    = Normal (ok_json (JObj {[ lit "text" := text ]}))
    ∧ new_calls quiet_world
        (serve example_engine VoiceToText
           (mock (Throw boom)
              (Normal (object [("text", JStr (lit "hello world"))]))
              (Throw boom))
           (audio_request []) quiet_world).2
      = [AudioTranscriptionsCreate
           (transcription_request (tmpPath_of (w_now quiet_world)))]
    ∧ (∀ o v, object [("text", JStr (lit "hello world"))] = JObj o →
              o !! lit "text" = Some v → truthy v = true → text = v)
    ∧ (nullish (object [("text", JStr (lit "hello world"))]) = true
       ∨ truthy
           (get_named (lit "text")
              (object [("text", JStr (lit "hello world"))])) = false →
       text = JStr []).
Proof.
  exact (voice_to_text_answers example_engine
           (mock (Throw boom)
              (Normal (object [("text", JStr (lit "hello world"))]))
              (Throw boom))
           (audio_request []) quiet_world [] _ eq_refl eq_refl eq_refl).
Defined.

(** ** The file system *)



(** X5: a transcription of the written temp file that throws leaves the file
    system with the audio written at the path of the temp file and
    everything else as it was; when the name was free, there is exactly one
    file more than before. *)
Theorem failed_transcription_leaks_a_file rt openai req w buf e :
  file_buffer req = Some buf →
  w_write w (tmpPath_of (w_now w)) buf = Written →
  audio_transcriptions_create openai
    (transcription_request (tmpPath_of (w_now w))) = Throw e →
  w_fs (serve rt VoiceToText openai req w).2
  = <[tmpPath_of (w_now w) := buf]> (w_fs w)
  ∧ (w_fs w !! tmpPath_of (w_now w) = None →
     size (w_fs (serve rt VoiceToText openai req w).2) = S (size (w_fs w))).
Proof.
  intros Hbuf Hw Hthrow. rewrite voice_to_text_run, Hbuf. cbv zeta.
  rewrite Hw, Hthrow. unfold caught.
  cbn [snd set_fs w_fs log_call log_console].
  split; [done|]. apply map_size_insert_None.
Qed.

Lemma failed_transcription_leaks_a_file_witness :
  w_fs
    (serve example_engine VoiceToText (failing boom)
       (audio_request [x52; x49]%byte) quiet_world).2
  = <[tmpPath_of (w_now quiet_world) := [x52; x49]%byte]> (w_fs quiet_world)
  ∧ (w_fs quiet_world !! tmpPath_of (w_now quiet_world) = None →
     size
       (w_fs
          (serve example_engine VoiceToText (failing boom)
             (audio_request [x52; x49]%byte) quiet_world).2)
     = S (size (w_fs quiet_world))).
Proof.
  exact (failed_transcription_leaks_a_file example_engine (failing boom)
           (audio_request [x52; x49]%byte) quiet_world [x52; x49]%byte boom
           eq_refl eq_refl eq_refl).
Defined.

(** X6: no handler touches a file other than the temp file of the request,
    whatever the request and whatever the provider does; /translate, /chat
    and /text-to-voice leave the file system as it is, and no handler moves
    the clock. *)
Theorem other_files_are_untouched rt r openai req w :
  (r ≠ VoiceToText → w_fs (serve rt r openai req w).2 = w_fs w)
  ∧ (∀ p, p ≠ tmpPath_of (w_now w) →
          w_fs (serve rt r openai req w).2 !! p = w_fs w !! p)
  ∧ w_now (serve rt r openai req w).2 = w_now w.
Proof.
  destruct r;
    [ rewrite translate_run | rewrite chat_run | rewrite voice_to_text_run
    | rewrite text_to_voice_run ];
    cbv zeta; unfold caught; repeat case_match;
    cbn [snd set_fs w_fs w_now log_call log_console];
    (split; [try done|]); (split; [|done]); intros p Hp; try done;
    by rewrite ?lookup_delete_ne, ?lookup_insert_ne.
Qed.

(** ** Requests that are turned away *)

(** X7: a request that fails the guard of its route is answered 400 with the
    route's message and leaves no trace: no provider call, no file, no line
    on the console. *)
Theorem rejected_request_leaves_no_trace rt r openai req w :
  validates r req = false →
  serve rt r openai req w = (Normal (bad_request (missing_message r)), w).
Proof.
  intros Hv.
  destruct r;
    [ rewrite translate_run | rewrite chat_run | rewrite voice_to_text_run
    | rewrite text_to_voice_run ];
    try (by rewrite Hv).
  cbn [validates] in Hv. apply bool_decide_eq_false in Hv.
  destruct (file_buffer req); [|done].
  exfalso. apply Hv. eauto.
Qed.

Lemma rejected_request_leaves_no_trace_witness :
  serve example_engine VoiceToText (failing boom)
    (json_request [("audio", JStr (lit "not a file"))]) quiet_world
  = (Normal (bad_request (missing_message VoiceToText)), quiet_world).
Proof.
  apply rejected_request_leaves_no_trace. vm_compute. reflexivity.
Defined.

(** ** The console *)

(** X8: every request is answered, and a line is written on the console
    exactly when the answer is 500: one line, after those already there,
    with the tag of the route and the message of the error (the error itself
    when it has no message) whose text the response gives as [details]. *)
Theorem errors_are_logged rt r openai req w :
  ∃ res,
    (serve rt r openai req w).1 = Normal res
    ∧ ((∃ e,
          res = failure (failed_message r) e
          ∧ w_console (serve rt r openai req w).2
            = w_console w
              ++ [{| cl_tag := lit (error_tag r);
                     cl_value := message_or_self e |}])
       ∨ (statusCode res ≠ 500%N
          ∧ w_console (serve rt r openai req w).2 = w_console w)).
Proof.
  destruct r;
    [ rewrite translate_run | rewrite chat_run | rewrite voice_to_text_run
    | rewrite text_to_voice_run ];
    cbv zeta; unfold caught; repeat case_match;
    cbn [fst snd w_console set_fs log_call log_console error_tag
         failed_message];
    eexists; (split; [reflexivity|]);
    first [ by right | left; by eexists ].
Qed.

(** ** The shape of a response *)

(** X9: every request is answered, with one of four responses: the 400 of
    the route, the 500 of the route for some error, a 200 whose JSON body is
    an object with the single key of the route, or, on /text-to-voice only,
    a 200 carrying audio.  The content type is audio/mpeg in that last case
    and never otherwise. *)
Theorem response_shapes rt r openai req w :
  ∃ res,
    (serve rt r openai req w).1 = Normal res
    ∧ (res = bad_request (missing_message r)
       ∨ (∃ e, res = failure (failed_message r) e)
       ∨ (∃ k v, success_key r = Some k
                 ∧ res = ok_json (JObj {[ lit k := v ]}))
       ∨ (∃ payload, r = TextToVoice ∧ res = audio_response payload))
    ∧ (headers res !! "Content-Type" = Some (HStr (lit "audio/mpeg"))
       ↔ ∃ payload, r = TextToVoice ∧ res = audio_response payload).
Proof.
  assert (∀ res : response,
            headers res = json_headers → (∃ v, res_body res = SentJson v) →
            headers res !! "Content-Type" = Some (HStr (lit "audio/mpeg"))
            ↔ ∃ payload, r = TextToVoice ∧ res = audio_response payload)
    as Hjson.
  { intros res -> [v Hv]. split.
    - unfold json_headers. rewrite lookup_singleton_eq. intros H.
      apply (inj Some) in H.
      assert (lit "application/json; charset=utf-8" = lit "audio/mpeg")
        as H' by congruence.
      apply lit_inj in H'. discriminate.
    - intros (payload & _ & ->). discriminate. }
  destruct r;
    [ rewrite translate_run | rewrite chat_run | rewrite voice_to_text_run
    | rewrite text_to_voice_run ];
    cbv zeta; unfold caught; repeat case_match;
    cbn [fst missing_message failed_message];
    eexists; (split; [reflexivity|]);
    (split;
     [ first [ by left
             | right; left; by eexists
             | right; right; left; by eexists _, _
             | right; right; right; by eexists ]
     | try (apply Hjson; [reflexivity | by eexists]) ]).
  split; [by eexists|]. intros _. unfold audio_response, headers.
  rewrite !lookup_insert_ne by done. apply lookup_singleton_eq.
Qed.

(** ** Requests at different instants *)

(** The second half of a request, however the provider settles, touches no
    file but the temp file of the request. *)
Lemma vtt_resume_other rt path outcome res w p :
  p ≠ path →
  w_fs (turn (vtt_resume rt path outcome) res w).2 !! p = w_fs w !! p.
Proof.
  intros Hp.
  unfold turn, vtt_resume, unlinkSync, try_catch, bind, await, lift, ret,
    get_world.
  cbv beta iota zeta. destruct outcome as [transcription | e];
    cbv beta iota zeta; [|reflexivity].
  cbn [hs_world].
  destruct (w_fs w !! path) eqn:E; cbv beta iota zeta.
  - cbn [modify_world hs_world hs_res set_fs w_fs res_json modify_res snd].
    by rewrite lookup_delete_ne.
  - reflexivity.
Qed.

(** X10: two requests to POST /voice-to-text whose handlers start at
    different instants, and whose writes the disk accepts, work on different
    temp files: the second request
    leaves the audio of the first in place when it writes its own file, and
    also when it resumes, whether its transcription succeeded or threw. *)
Theorem different_instants_do_not_interfere
    rt reqA reqB bufA bufB w t outcome :
  file_buffer reqA = Some bufA →
  file_buffer reqB = Some bufB →
  w_write w (tmpPath_of (w_now w)) bufA = Written →
  w_write w (tmpPath_of t) bufB = Written →
  t ≠ w_now w →
  ∃ pathA pathB resA resB w1 w2,
    turn (vtt_begin reqA) fresh_res w = (Normal (Awaiting pathA), resA, w1)
    ∧ turn (vtt_begin reqB) fresh_res (set_now t w1)
      = (Normal (Awaiting pathB), resB, w2)
    ∧ pathA ≠ pathB
    ∧ w_fs w2 !! pathA = Some bufA
    ∧ w_fs w2 !! pathB = Some bufB
    ∧ w_fs (turn (vtt_resume rt pathB outcome) resB w2).2 !! pathA
      = Some bufA.
Proof.
  intros HA HB HwA HwB Ht.
  assert (tmpPath_of (w_now w) ≠ tmpPath_of t) as Hpath.
  { intros H. by apply tmpPath_of_inj in H. }
  eexists _, _, _, _, _, _.
  split; [by apply vtt_begin_run|].
  split; [by rewrite (vtt_begin_run _ _ _ _ HB)|].
  cbn [set_now set_fs log_call w_fs w_now].
  split; [exact Hpath|].
  assert (<[tmpPath_of t := bufB]> (<[tmpPath_of (w_now w) := bufA]> (w_fs w))
          !! tmpPath_of (w_now w) = Some bufA) as HfsA.
  { rewrite lookup_insert_ne by done. apply lookup_insert_eq. }
  split; [exact HfsA|]. split; [apply lookup_insert_eq|].
  rewrite vtt_resume_other by done. exact HfsA.
Qed.

Lemma different_instants_do_not_interfere_witness :
  ∃ pathA pathB resA resB w1 w2,
    turn (vtt_begin (audio_request [x41]%byte)) fresh_res quiet_world
    = (Normal (Awaiting pathA), resA, w1)
    ∧ turn (vtt_begin (audio_request [x42]%byte)) fresh_res
        (set_now 1730000000001 w1)
      = (Normal (Awaiting pathB), resB, w2)
    ∧ pathA ≠ pathB
    ∧ w_fs w2 !! pathA = Some [x41]%byte
    ∧ w_fs w2 !! pathB = Some [x42]%byte
    ∧ w_fs (turn (vtt_resume example_engine pathB (Normal JNull)) resB w2).2
      !! pathA
      = Some [x41]%byte.
Proof.
  apply (different_instants_do_not_interfere example_engine
           (audio_request [x41]%byte) (audio_request [x42]%byte)
           [x41]%byte [x42]%byte quiet_world 1730000000001%N (Normal JNull)).
  - reflexivity.
  - reflexivity.
  - reflexivity.
  - reflexivity.
  - discriminate.
Defined.

(** ** Answers of the provider the handlers cannot use *)

(** X11: when the speech operation succeeds but reading the body of its
    answer throws, POST /text-to-voice answers with the 500 of its [catch]
    block, a JSON body and no audio header, after its one provider call. *)
Theorem unreadable_speech_is_a_500 rt openai req w speech e :
  truthy (destructure "text" req) = true →
  audio_speech_create openai (speech_request (destructure "text" req))
  = Normal speech →
  arrayBuffer speech = Throw e →
  (serve rt TextToVoice openai req w).1 = Normal (failure "TTS failed" e)
  ∧ new_calls w (serve rt TextToVoice openai req w).2
    = [AudioSpeechCreate (speech_request (destructure "text" req))].
Proof.
  intros Ht Hs Hb.
  rewrite text_to_voice_run. cbn [validates]. rewrite Ht. cbv zeta.
  rewrite Hs, Hb. unfold caught. cbn [fst snd].
  split; [reflexivity | by apply new_calls_one].
Qed.

Lemma unreadable_speech_is_a_500_witness :
  (serve example_engine TextToVoice
     (mock (Throw boom) (Throw boom) (Normal {| arrayBuffer := Throw boom |}))
     (json_request [("text", JStr (lit "hi"))]) quiet_world).1
  = Normal (failure "TTS failed" boom)
  ∧ new_calls quiet_world
      (serve example_engine TextToVoice
         (mock (Throw boom) (Throw boom)
            (Normal {| arrayBuffer := Throw boom |}))
         (json_request [("text", JStr (lit "hi"))]) quiet_world).2
    = [AudioSpeechCreate
         (speech_request
            (destructure "text" (json_request [("text", JStr (lit "hi"))])))].
Proof.
  apply (unreadable_speech_is_a_500 example_engine _ _ quiet_world
           {| arrayBuffer := Throw boom |}).
  - vm_compute. reflexivity.
  - reflexivity.
  - reflexivity.
Defined.

(** X12: when the chat completion a handler asked for succeeds but the
    content of its first choice is neither a string nor absent (a number, a
    boolean, an array, an object), the call of [trim] throws and the answer
    is the 500 of the route, with the TypeError of the runtime. *)
Theorem non_text_content_is_a_500 rt r openai req w params resp :
  ChatCompletionsCreate params ∈ new_calls w (serve rt r openai req w).2 →
  chat_completions_create openai params = Normal resp →
  trimmed_or_empty (first_choice_content resp) = None →
  (serve rt r openai req w).1
  = Normal
      (failure (failed_message r)
         (Error (lit "TypeError") (msg_not_function rt))).
Proof.
  intros Hc Hok Hnone.
  assert (opt_trim rt (first_choice_content resp)
          = Throw (Error (lit "TypeError") (msg_not_function rt))) as Htrim.
  { by destruct (first_choice_content resp). }
  destruct r; revert Hc;
    [ rewrite translate_run | rewrite chat_run | rewrite voice_to_text_run
    | rewrite text_to_voice_run ];
    cbv zeta; cbn [failed_message];
    repeat case_match; count_calls; intros Hc;
    try (by apply elem_of_nil in Hc);
    apply list_elem_of_singleton in Hc;
    try discriminate;
    injection Hc as ->; congruence.
Qed.

Lemma non_text_content_is_a_500_witness :
  (serve example_engine Chat
     (mock (Normal (completion_with (JArr []))) (Throw boom) (Throw boom))
     (json_request [("message", JStr (lit "hi"))]) quiet_world).1
  = Normal
      (failure (failed_message Chat)
         (Error (lit "TypeError") (msg_not_function example_engine))).
Proof.
  apply (non_text_content_is_a_500 example_engine Chat
           (mock (Normal (completion_with (JArr []))) (Throw boom) (Throw boom))
           (json_request [("message", JStr (lit "hi"))]) quiet_world
           (chat_request [] (JStr (lit "hi")))
           (completion_with (JArr []))).
  - vm_compute. apply list_elem_of_here.
  - reflexivity.
  - vm_compute. reflexivity.
Defined.

(** An answer with no first choice has no content: the optional chain stops
    at the first link that is [undefined] or [null]. *)
Lemma first_choice_content_absent resp :
  nullish resp = true
  ∨ (∃ o, resp = JObj o
          ∧ (o !! lit "choices" = None
             ∨ o !! lit "choices" = Some JNull
             ∨ o !! lit "choices" = Some (JArr []))) →
  first_choice_content resp = JUndefined.
Proof.
  unfold first_choice_content.
  intros [Hn | (o & -> & [Hc | [Hc | Hc]])].
  - unfold opt_chain at 4. by rewrite Hn.
  - unfold opt_chain at 4. cbn [nullish get_named]. by rewrite Hc.
  - unfold opt_chain at 4. cbn [nullish get_named]. by rewrite Hc.
  - unfold opt_chain at 4. cbn [nullish get_named]. rewrite Hc.
    reflexivity.
Qed.

(** X13: when the chat completion a handler asked for succeeds with an
    answer that has no first choice ([undefined], [null], or an object whose
    [choices] is missing, [null] or the empty array), POST /translate and
    POST /chat answer 200 with the empty string as the result or reply. *)
Theorem missing_choice_gives_empty_text rt r k openai req w params resp :
  (r = Translate ∧ k = "result") ∨ (r = Chat ∧ k = "reply") →
  ChatCompletionsCreate params ∈ new_calls w (serve rt r openai req w).2 →
  chat_completions_create openai params = Normal resp →
  nullish resp = true
  ∨ (∃ o, resp = JObj o
          ∧ (o !! lit "choices" = None
             ∨ o !! lit "choices" = Some JNull
             ∨ o !! lit "choices" = Some (JArr []))) →
  (serve rt r openai req w).1
  = Normal (ok_json (JObj {[ lit k := JStr [] ]})).
Proof.
  intros Hr Hc Hok Hshape.
  assert (opt_trim rt (first_choice_content resp) = Normal JUndefined)
    as Htrim by (by rewrite (first_choice_content_absent _ Hshape)).
  destruct Hr as [[-> ->] | [-> ->]]; revert Hc;
    [ rewrite translate_run | rewrite chat_run ];
    cbv zeta;
    repeat case_match; count_calls; intros Hc;
    try (by apply elem_of_nil in Hc);
    apply list_elem_of_singleton in Hc;
    injection Hc as ->;
    match goal with
    | H : chat_completions_create _ _ = _ |- _ =>
        rewrite Hok in H; try discriminate; injection H as <-
    end;
    match goal with
    | H : opt_trim _ _ = _ |- _ =>
        rewrite Htrim in H; try discriminate; injection H as <-
    end;
    reflexivity.
Qed.

Lemma missing_choice_gives_empty_text_witness :
  (serve example_engine Translate
     (mock (Normal (object [("choices", JArr [])])) (Throw boom) (Throw boom))
     (json_request
        [("text", JStr (lit "Hello")); ("targetLanguage", JStr (lit "Spanish"))])
     quiet_world).1
  = Normal (ok_json (JObj {[ lit "result" := JStr [] ]})).
Proof.
  apply (missing_choice_gives_empty_text example_engine Translate "result"
           (mock (Normal (object [("choices", JArr [])])) (Throw boom)
              (Throw boom))
           (json_request
              [("text", JStr (lit "Hello"));
               ("targetLanguage", JStr (lit "Spanish"))])
           quiet_world
           (translate_request (translate_prompt (lit "Spanish") (lit "Hello")))
           (object [("choices", JArr [])])).
  - left. split; reflexivity.
  - vm_compute. apply list_elem_of_here.
  - reflexivity.
  - right. eexists. split; [reflexivity|]. right. right.
    vm_compute. reflexivity.
Defined.

(** ** What each route asks of the provider *)

(** X14: whatever the request, a route invokes only its own operation, on
    its own model: /translate and /chat a chat completion on gpt-4o-mini,
    with a system turn followed by a user turn; /voice-to-text a
    transcription on gpt-4o-mini-transcribe of the temp file of the request;
    /text-to-voice a speech synthesis on gpt-4o-mini-tts with the voice alloy
    and the [text] of the request, unconverted, as input.  On /chat the user
    turn is the [message] of the request, unconverted. *)
Theorem each_route_asks_its_own_operation rt r openai req w :
  Forall
    (λ c,
       match r, c with
       | Translate, ChatCompletionsCreate p =>
           cp_model p = lit "gpt-4o-mini"
           ∧ role <$> cp_messages p = [lit "system"; lit "user"]
       | Chat, ChatCompletionsCreate p =>
           cp_model p = lit "gpt-4o-mini"
           ∧ role <$> cp_messages p = [lit "system"; lit "user"]
           ∧ last (content <$> cp_messages p)
             = Some (destructure "message" req)
       | VoiceToText, AudioTranscriptionsCreate p =>
           tp_model p = lit "gpt-4o-mini-transcribe"
           ∧ tp_file p = tmpPath_of (w_now w)
       | TextToVoice, AudioSpeechCreate p =>
           sp_model p = lit "gpt-4o-mini-tts"
           ∧ sp_voice p = lit "alloy"
           ∧ sp_input p = destructure "text" req
       | _, _ => False
       end)
    (new_calls w (serve rt r openai req w).2).
Proof.
  destruct r;
    [ rewrite translate_run | rewrite chat_run | rewrite voice_to_text_run
    | rewrite text_to_voice_run ];
    cbv zeta; repeat case_match; count_calls;
    repeat constructor.
Qed.

(** ** Fields that are not strings *)

(** A value that is neither an array nor an object always converts to a
    string. *)
Lemma primitive_converts rt v :
  (∀ l, v ≠ JArr l) → (∀ o, v ≠ JObj o) → ∃ s, ToString rt v = Normal s.
Proof.
  intros Ha Ho. destruct v as [| |[]| | |l|o]; cbn; eauto.
  - by destruct (Ha l).
  - by destruct (Ho o).
Qed.

(** X16: a request that passes the guard of its route, whose fields are
    strings, numbers, booleans or [null] (no array, no object) and, on
    /voice-to-text, whose temp file is written, always reaches the provider:
    exactly one operation is invoked.  A truthy number or [true] in place of
    a string is not turned away. *)
Theorem primitive_fields_reach_the_provider rt r openai req w :
  validates r req = true →
  (∀ v, v ∈ interpolated r req → (∀ l, v ≠ JArr l) ∧ (∀ o, v ≠ JObj o)) →
  temp_file_written r req w = true →
  length (new_calls w (serve rt r openai req w).2) = 1.
Proof.
  intros Hv Hprim.
  assert (∀ v, v ∈ interpolated r req → ∀ e, ToString rt v ≠ Throw e)
    as Hconv.
  { intros v Hin e He. destruct (Hprim v Hin) as [Ha Ho].
    destruct (primitive_converts rt v Ha Ho) as [s Hs]. congruence. }
  destruct r; cbn [interpolated] in Hconv; cbn [temp_file_written];
    [ rewrite translate_run | rewrite chat_run | rewrite voice_to_text_run
    | rewrite text_to_voice_run ];
    cbv zeta; repeat case_match; count_calls; intros Hw; try reflexivity;
    try congruence;
    try (exfalso; eapply Hconv; [|eassumption];
         repeat first [ apply list_elem_of_here | apply list_elem_of_further ]).
  cbn [validates] in Hv. apply bool_decide_eq_true in Hv as [b Hb].
  congruence.
Qed.

Lemma primitive_fields_reach_the_provider_witness :
  length
    (new_calls quiet_world
       (serve example_engine Translate (failing boom)
          (json_request
             [("text", JBool true); ("targetLanguage", JStr (lit "Spanish"))])
          quiet_world).2)
  = 1.
Proof.
  apply primitive_fields_reach_the_provider.
  - vm_compute. reflexivity.
  - intros v Hv. cbn [interpolated] in Hv.
    apply elem_of_cons in Hv as [-> | Hv];
      [split; intros ?; vm_compute; discriminate|].
    apply elem_of_cons in Hv as [-> | Hv];
      [split; intros ?; vm_compute; discriminate|].
    by apply elem_of_nil in Hv.
  - reflexivity.
Defined.

(** ** Cleaning up a file that is gone *)

(** X17: when a request resumes after a successful transcription and its
    temp file is no longer there, the error of [unlinkSync] is swallowed:
    the response is the same 200, nothing is written on the console, and the
    world is left as it is. *)
Theorem vanished_temp_file_is_ignored rt path transcription w :
  w_fs w !! path = None →
  turn (vtt_resume rt path (Normal transcription)) fresh_res w
  = (Normal tt,
     ok_json
       (JObj {[ lit "text" :=
                  js_or (opt_chain (get_named (lit "text")) transcription)
                    (JStr []) ]}),
     w).
Proof.
  intros Hgone.
  unfold turn, vtt_resume, unlinkSync, try_catch, bind, await, lift, ret,
    get_world.
  cbv beta iota zeta. cbn [hs_world]. rewrite Hgone. reflexivity.
Qed.

Lemma vanished_temp_file_is_ignored_witness :
  turn
    (vtt_resume example_engine (lit "/tmp/record-1730000000000.webm")
       (Normal (object [("text", JStr (lit "hello"))])))
    fresh_res quiet_world
  = (Normal tt,
     ok_json
       (JObj {[ lit "text" :=
                  js_or
                    (opt_chain (get_named (lit "text"))
                       (object [("text", JStr (lit "hello"))]))
                    (JStr []) ]}),
     quiet_world).
Proof.
  apply vanished_temp_file_is_ignored. reflexivity.
Defined.
